(** * Metrics of the filebeat UDP input

    A shallow embedding of [filebeat/input/udp/input.go]: the input's
    metric object ([inputMetrics]), its constructor with the address
    resolution for the kernel UDP table, the per-packet accounting
    ([log]), the poller ([poll], [procNetUDP], [contains]) and the
    shutdown ([close]).

    Go strings and byte slices are [string] (a list of 8-bit [ascii]);
    Go's fixed-width integers are [Z] with the wrap-around written out;
    Go's [error] results are the [result] type below; the process-wide
    monitoring registry is a [gmap]. *)

From stdpp Require Import base gmap strings.
From Stdlib Require Import ZArith Ascii String List Bool Lia.
Import ListNotations.

Open Scope string_scope.
Open Scope Z_scope.

(** ** Errors *)

(** The two error kinds of [strconv.NumError]. *)
Inductive NumErr : Type :=
| ErrSyntax
| ErrRange
| ErrBase
| ErrBitSize.

(** The [error] values this file produces or passes on. *)
Inductive error : Type :=
| ENum (fn : string) (num : string) (e : NumErr)   (* *strconv.NumError *)
| EReadFile (path : string)                        (* os.ReadFile failed *)
| ELookup (host : string)                          (* net.LookupIP failed *)
| ENoLine (path : string) (addr : list string)     (* "%s entry not found for %s (no line)" *)
| ENoRxQueue (f4 : string)                         (* "no rx_queue field " + f[4] *)
| EParseRxQueue (e : error)                        (* "failed to parse rx_queue: %w" *)
| EParseDrops (e : error)                          (* "failed to parse drops: %w" *)
| ENotFound (path : string) (addr : list string).  (* "%s entry not found for %s" *)

Inductive result (A : Type) : Type :=
| Ok (a : A)
| Err (e : error).
Arguments Ok {A} a.
Arguments Err {A} e.

Definition isOk {A} (r : result A) : bool :=
  match r with Ok _ => true | Err _ => false end.

(** The byte value of a character. *)
Definition code (c : ascii) : Z := Z.of_N (N_of_ascii c).

(** ** package strings *)
Module GoStrings.

(** [strings.Cut(s, sep)]: slices [s] around the first instance of
    [sep]; [(s, "", false)] when [sep] does not occur. *)
Definition Cut (s sep : string) : string * string * bool :=
  match index 0 sep s with
  | Some i =>
      (substring 0 i s,
       substring (i + String.length sep)
                 (String.length s - (i + String.length sep)) s,
       true)
  | None => (s, "", false)
  end.

(** One step of the ASCII loop of [strings.EqualFold]: the bytes are
    equal, or the smaller one is an upper-case letter and the larger
    one its lower-case form. *)
Definition foldEq (sr tr : ascii) : bool :=
  let a := Z.min (code sr) (code tr) in
  let b := Z.max (code sr) (code tr) in
  (code tr =? code sr)
  || ((code "A" <=? a) && (a <=? code "Z") && (b =? a + code "a" - code "A")).

(** [strings.EqualFold(s, t)] on ASCII text.  The Unicode branch of the
    library function (taken when a byte is 0x80 or above) is not
    modelled: a key built by [newInputMetrics] holds only hexadecimal
    digits, [:] and [-], which have no fold partner outside ASCII. *)
Fixpoint EqualFold (s t : string) : bool :=
  match s, t with
  | EmptyString, EmptyString => true
  | String sr s', String tr t' => foldEq sr tr && EqualFold s' t'
  | _, _ => false
  end.

End GoStrings.

(** ** package bytes *)
Module GoBytes.

(** [bytes.Cut] is [strings.Cut] on byte slices. *)
Definition Cut := GoStrings.Cut.

(** [bytes.Split(b, sep)] for a one-byte separator, as [procNetUDP]
    calls it: [cur] is the piece being read.  A text with [n]
    separators has [n + 1] pieces. *)
Fixpoint splitFrom (cur : string) (sep : ascii) (s : string) : list string :=
  match s with
  | EmptyString => [cur]
  | String c s' =>
      if Ascii.eqb c sep then cur :: splitFrom "" sep s'
      else splitFrom (cur ++ String c "") sep s'
  end.

Definition Split (b : string) (sep : ascii) : list string :=
  splitFrom "" sep b.

(** The table [asciiSpace]: tab, newline, vertical tab, form feed,
    carriage return and space. *)
Definition asciiSpace (c : ascii) : bool :=
  let n := code c in
  (n =? 9) || (n =? 10) || (n =? 11) || (n =? 12) || (n =? 13) || (n =? 32).

(** [bytes.Fields(s)] on ASCII text: the maximal runs of non-space
    bytes, [cur] being the field that is being read.  (On a text with
    a byte of 0x80 or above the library function splits around
    Unicode white space instead; the kernel table is ASCII.) *)
Fixpoint fieldsFrom (cur : string) (s : string) : list string :=
  match s with
  | EmptyString => match cur with EmptyString => [] | _ => [cur] end
  | String c s' =>
      if asciiSpace c then
        match cur with
        | EmptyString => fieldsFrom "" s'
        | _ => cur :: fieldsFrom "" s'
        end
      else fieldsFrom (cur ++ String c "") s'
  end.

Definition Fields (s : string) : list string := fieldsFrom "" s.

End GoBytes.

(** ** package strconv *)
Module Strconv.

Definition maxUint64 : Z := 2 ^ 64 - 1.

(** [lower(c)] is [c | ('x' - 'X')]. *)
Definition lower (c : Z) : Z := Z.lor c 32.

(** The value of a digit byte, or [None] for a byte that is no digit
    in any base. *)
Definition digitVal (c : ascii) : option Z :=
  let n := code c in
  if (code "0" <=? n) && (n <=? code "9") then Some (n - code "0")
  else if (code "a" <=? lower n) && (lower n <=? code "z")
       then Some (lower n - code "a" + 10)
       else None.

(** The digit loop of [ParseUint]: [n] is the value read so far; the
    loop stops at the first byte that is no digit of the base, or at
    the first overflow of 64 bits or of [maxVal]. *)
Fixpoint parseDigits (base maxVal n : Z) (s : string) : Z + NumErr :=
  match s with
  | EmptyString => inl n
  | String c s' =>
      match digitVal c with
      | None => inr ErrSyntax
      | Some d =>
          if base <=? d then inr ErrSyntax
          else if maxUint64 / base + 1 <=? n then inr ErrRange
               else
                 let n1 := n * base + d in
                 if (maxUint64 <? n1) || (maxVal <? n1) then inr ErrRange
                 else parseDigits base maxVal n1 s'
      end
  end.

(** [strconv.ParseUint(s, base, bitSize)] for an explicit base (2 to
    36).  Base 0, which reads the base off a prefix, is not used by
    this program and is refused here like any other base outside 2..36.
    Bit size 0 stands for 64. *)
Definition parseUint (s : string) (base bitSize : Z) : Z + NumErr :=
  match s with
  | EmptyString => inr ErrSyntax
  | _ =>
      if (base <? 2) || (36 <? base) then inr ErrBase
      else if (bitSize <? 0) || (64 <? bitSize) then inr ErrBitSize
           else
             let bitSize := if bitSize =? 0 then 64 else bitSize in
             parseDigits base (2 ^ bitSize - 1) 0 s
  end.

Definition ParseUint (s : string) (base bitSize : Z) : result Z :=
  match parseUint s base bitSize with
  | inl n => Ok n
  | inr e => Err (ENum "ParseUint" s e)
  end.

(** [strconv.ParseInt(s, base, bitSize)]: an optional sign, then
    [ParseUint] on the rest, then the range check of a signed
    [bitSize]-bit integer: the magnitude must be below
    [2^(bitSize-1)], or equal to it for a negative number.  (On a range
    error of [ParseUint] the library goes on with the largest
    unsigned value, which fails the check below either way.) *)
Definition ParseInt (s0 : string) (base bitSize : Z) : result Z :=
  match s0 with
  | EmptyString => Err (ENum "ParseInt" s0 ErrSyntax)
  | String c rest =>
      let neg := Ascii.eqb c "-" in
      let s := if Ascii.eqb c "+" || neg then rest else s0 in
      match parseUint s base bitSize with
      | inr e => Err (ENum "ParseInt" s0 e)
      | inl un =>
          let bitSize := if bitSize =? 0 then 64 else bitSize in
          let cutoff := 2 ^ (bitSize - 1) in
          if negb neg && (cutoff <=? un) then Err (ENum "ParseInt" s0 ErrRange)
          else if neg && (cutoff <? un) then Err (ENum "ParseInt" s0 ErrRange)
               else Ok (if neg then - un else un)
      end
  end.

(** The digit tables of [strconv] (lower case) and of [fmt]'s [%X]
    (upper case). *)
Definition digits : string := "0123456789abcdefghijklmnopqrstuvwxyz".
Definition udigits : string := "0123456789ABCDEFX".

Definition digitAt (tbl : string) (d : Z) : ascii :=
  match String.get (Z.to_nat d) tbl with
  | Some c => c
  | None => "0"%char
  end.

(** The loop of [formatBits]: while [u >= base], the digit of
    [u % base] is put in front of [acc] and [u] is divided; the last
    digit is that of [u].  A 64-bit value has at most 64 digits. *)
Fixpoint formatLoop (fuel : nat) (tbl : string) (base u : Z) (acc : string) : string :=
  match fuel with
  | O => String (digitAt tbl u) acc
  | S fuel' =>
      if base <=? u
      then formatLoop fuel' tbl base (u / base) (String (digitAt tbl (u mod base)) acc)
      else String (digitAt tbl u) acc
  end.

Definition formatBits (tbl : string) (u base : Z) (neg : bool) : string :=
  let a := formatLoop 64 tbl base (if neg then - u else u) "" in
  if neg then String "-" a else a.

(** [strconv.FormatInt(i, base)] of a 64-bit signed [i]. *)
Definition FormatInt (i base : Z) : string :=
  formatBits digits i base (i <? 0).

End Strconv.

(** ** package fmt *)
Module Fmt.

(** The verb [%X] on an unsigned integer: upper-case hexadecimal with
    no padding and no prefix. *)
Definition X (u : Z) : string := Strconv.formatBits Strconv.udigits u 16 false.

(** [fmt.Sprintf("%X:%s", u, s)]. *)
Definition Sprintf_X_s (u : Z) (s : string) : string := X u ++ ":" ++ s.

End Fmt.

(** ** packages net and encoding/binary *)
Module Net.

(** [net.IP] is a byte slice: 4 bytes, 16 bytes, or anything else. *)
Definition IP : Type := list Byte.byte.

Definition IPv4len : nat := 4.
Definition IPv6len : nat := 16.

Definition byteVal (b : Byte.byte) : Z := Z.of_N (Byte.to_N b).

Definition isZeros (p : list Byte.byte) : bool :=
  forallb (fun b => byteVal b =? 0) p.

(** [ip.To4()]: a 4-byte address is returned as it is; a 16-byte
    address with the IPv4-in-IPv6 prefix (ten zero bytes, then 0xff
    0xff) gives its last four bytes; anything else gives nil. *)
Definition To4 (ip : IP) : IP :=
  if (length ip =? IPv4len)%nat then ip
  else if (length ip =? IPv6len)%nat
          && isZeros (firstn 10 ip)
          && (byteVal (nth 10 ip Byte.x00) =? 255)
          && (byteVal (nth 11 ip Byte.x00) =? 255)
       then firstn 4 (skipn 12 ip)
       else [].

End Net.

Module Binary.

(** [binary.LittleEndian.Uint32(b)]:
    [b[0] | b[1]<<8 | b[2]<<16 | b[3]<<24]. *)
Definition LittleEndian_Uint32 (b : list Byte.byte) : Z :=
  let at_ i := Net.byteVal (nth i b Byte.x00) in
  Z.lor (Z.lor (Z.lor (at_ 0%nat) (Z.shiftl (at_ 1%nat) 8))
               (Z.shiftl (at_ 2%nat) 16))
        (Z.shiftl (at_ 3%nat) 24).

End Binary.

(** ** package time *)
Module GoTime.

(** An instant is its distance in nanoseconds from the zero [Time];
    a [Duration] is a signed 64-bit count of nanoseconds. *)
Definition Time : Type := Z.
Definition Duration : Type := Z.

Definition minDuration : Duration := - 2 ^ 63.
Definition maxDuration : Duration := 2 ^ 63 - 1.

Definition IsZero (t : Time) : bool := t =? 0.

(** [t.Sub(u)]: the duration [t - u], or the smallest or largest
    duration when the difference does not fit. *)
Definition Sub (t u : Time) : Duration :=
  let d := t - u in
  if d <? minDuration then minDuration
  else if maxDuration <? d then maxDuration
       else d.

(** [time.Since(t)] is [time.Now().Sub(t)]; the clock reading [now] is
    an input of the model. *)
Definition Since (now t : Time) : Duration := Sub now t.

Definition Nanoseconds (d : Duration) : Z := d.

End GoTime.

(** ** package go-metrics *)
Module Metrics.

(** [metrics.UniformSample]: the number of updates seen and a
    reservoir of at most [reservoirSize] values.  (The 64-bit update
    count is not wrapped: 2^63 updates are out of reach.) *)
Record UniformSample : Type := mkSample {
  count : Z;
  reservoirSize : Z;
  values : list Z
}.

Definition NewUniformSample (reservoirSize : Z) : UniformSample :=
  mkSample 0 reservoirSize [].

(** [s.Update(v)]: while the reservoir is not full, [v] is appended;
    afterwards [r], the draw of [rand.Int63n(s.count)], picks the slot
    that [v] replaces, or no slot when it falls outside the
    reservoir. *)
Definition Update (s : UniformSample) (v : Z) (r : Z) : UniformSample :=
  let c := count s + 1 in
  if Z.of_nat (length (values s)) <? reservoirSize s
  then mkSample c (reservoirSize s) (values s ++ [v])
  else if r <? Z.of_nat (length (values s))
       then mkSample c (reservoirSize s) (<[Z.to_nat r := v]> (values s))
       else mkSample c (reservoirSize s) (values s).

End Metrics.

(** ** package monitoring *)
Module Monitoring.

(** [monitoring.Uint] is an atomic unsigned 64-bit integer. *)
Definition Uint : Type := Z.

(** The conversion [uint64(x)]. *)
Definition uint64 (x : Z) : Z := x mod 2 ^ 64.

Definition Add (u : Uint) (delta : Z) : Uint := uint64 (u + delta).
(** [u.Set(v)] ([Set] is reserved). *)
Definition Set_ (u : Uint) (v : Z) : Uint := v.

End Monitoring.

(** ** package udp: the data *)

(** A channel made by [make(chan struct{})]: unbuffered, known by its
    identity. *)
Inductive Chan : Type := chan (id : nat).

(** The warnings written with [log.Warnf]. *)
Inductive warning : Type :=
| WarnNoPortSeparator (device : string)   (* "failed to get address for %s: no port separator" *)
| WarnAddress (device : string) (e : error) (* "failed to get address for %s: %v" *)
| WarnPort (device : string) (e : error)    (* "failed to get port for %s: %v" *)
| WarnProc (e : error).                     (* "failed to get udp stats from /proc: %v" *)

(** [inputMetrics]; a nil [*inputMetrics] is [None] of
    [option inputMetrics].  The closure [unregister] is the identifier
    it removes from the registry; a nil [done] is [None]. *)
Record inputMetrics : Type := mkInputMetrics {
  unregister : string;
  done : option Chan;
  lastPacket : GoTime.Time;
  device : string;
  packets : Monitoring.Uint;
  bytes : Monitoring.Uint;
  bufferLen : Monitoring.Uint;
  rxQueue : Monitoring.Uint;
  drops : Monitoring.Uint;
  arrivalPeriod : Metrics.UniformSample;
  processingTime : Metrics.UniformSample
}.

Definition set_done (v : option Chan) (m : inputMetrics) : inputMetrics :=
  mkInputMetrics (unregister m) v (lastPacket m) (device m) (packets m) (bytes m)
    (bufferLen m) (rxQueue m) (drops m) (arrivalPeriod m) (processingTime m).
Definition set_lastPacket (v : GoTime.Time) (m : inputMetrics) : inputMetrics :=
  mkInputMetrics (unregister m) (done m) v (device m) (packets m) (bytes m)
    (bufferLen m) (rxQueue m) (drops m) (arrivalPeriod m) (processingTime m).
Definition set_packets (v : Monitoring.Uint) (m : inputMetrics) : inputMetrics :=
  mkInputMetrics (unregister m) (done m) (lastPacket m) (device m) v (bytes m)
    (bufferLen m) (rxQueue m) (drops m) (arrivalPeriod m) (processingTime m).
Definition set_bytes (v : Monitoring.Uint) (m : inputMetrics) : inputMetrics :=
  mkInputMetrics (unregister m) (done m) (lastPacket m) (device m) (packets m) v
    (bufferLen m) (rxQueue m) (drops m) (arrivalPeriod m) (processingTime m).
Definition set_rxQueue (v : Monitoring.Uint) (m : inputMetrics) : inputMetrics :=
  mkInputMetrics (unregister m) (done m) (lastPacket m) (device m) (packets m) (bytes m)
    (bufferLen m) v (drops m) (arrivalPeriod m) (processingTime m).
Definition set_drops (v : Monitoring.Uint) (m : inputMetrics) : inputMetrics :=
  mkInputMetrics (unregister m) (done m) (lastPacket m) (device m) (packets m) (bytes m)
    (bufferLen m) (rxQueue m) v (arrivalPeriod m) (processingTime m).
Definition set_arrivalPeriod (v : Metrics.UniformSample) (m : inputMetrics) : inputMetrics :=
  mkInputMetrics (unregister m) (done m) (lastPacket m) (device m) (packets m) (bytes m)
    (bufferLen m) (rxQueue m) (drops m) v (processingTime m).
Definition set_processingTime (v : Metrics.UniformSample) (m : inputMetrics) : inputMetrics :=
  mkInputMetrics (unregister m) (done m) (lastPacket m) (device m) (packets m) (bytes m)
    (bufferLen m) (rxQueue m) (drops m) (arrivalPeriod m) v.

(** A goroutine running [poll(addr, each, log)] on the object whose
    [done] channel is [pDone]. *)
Record poller : Type := mkPoller {
  pDone : Chan;
  pAddr : list string;
  pEach : GoTime.Duration
}.

(** What the metrics object shares with the rest of the process: the
    monitoring registry (identifier of an input to the names registered
    under it), the warnings logged so far, the live poller goroutines
    and the next fresh channel. *)
Record World : Type := mkWorld {
  registry : gmap string (list string);
  warnings : list warning;
  pollers : list poller;
  nextChan : nat
}.

(** What the constructor reads from its surroundings: [runtime.GOOS]
    and the resolver behind [net.LookupIP]. *)
Record Env : Type := mkEnv {
  GOOS : string;
  LookupIP : string -> result (list Net.IP)
}.

(** What one call of [log] reads from its surroundings: the clock
    ([time.Now] inside [time.Since]) and the draws of the random source
    for the two samples. *)
Record Ambient : Type := mkAmbient {
  now : GoTime.Time;
  drawProcessing : Z;
  drawArrival : Z
}.

(** ** package udp: the operations *)

(** The names that [newInputMetrics] registers under the identifier of
    the input, in the order of the constructor. *)
Definition metricNames : list string :=
  [ "udp_read_buffer_length_gauge"; "device"; "received_events_total";
    "received_bytes_total"; "receive_queue_length"; "system_packet_drops";
    "arrival_period"; "processing_time" ].

(** The loop of [newInputMetrics] over the resolved addresses: an
    address with no 4-byte form is skipped, the others give the key
    [Sprintf("%X:%s", LittleEndian.Uint32(p4), ph)]. *)
Fixpoint addrKeys (ip : list Net.IP) (ph : string) : list string :=
  match ip with
  | [] => []
  | p :: rest =>
      let p4 := Net.To4 p in
      if negb (length p4 =? Net.IPv4len)%nat then addrKeys rest ph
      else Fmt.Sprintf_X_s (Binary.LittleEndian_Uint32 p4) ph :: addrKeys rest ph
  end.

(** The block of [newInputMetrics] that turns [device] into the keys of
    the kernel table: cut at the first colon, look the host up, parse
    the port with [ParseInt(port, 10, 16)], format it with
    [FormatInt(p, 16)].  Each failure is the warning that the
    constructor logs before it returns. *)
Definition resolveAddr (env : Env) (device : string) : warning + list string :=
  match GoStrings.Cut device ":" with
  | (host, port, ok) =>
      if negb ok then inl (WarnNoPortSeparator device)
      else
        match LookupIP env host with
        | Err e => inl (WarnAddress device e)
        | Ok ip =>
            match Strconv.ParseInt port 10 16 with
            | Err e => inl (WarnPort device e)
            | Ok p => inr (addrKeys ip (Strconv.FormatInt p 16))
            end
        end
  end.

(** [inputmon.NewInputRegistry("udp", id, nil)] followed by the
    registrations of the constructor, and the [unregister] closure it
    returns. *)
Definition registerInput (id : string) (w : World) : World :=
  mkWorld (<[id := metricNames]> (registry w)) (warnings w) (pollers w) (nextChan w).

Definition unregisterInput (id : string) (w : World) : World :=
  mkWorld (delete id (registry w)) (warnings w) (pollers w) (nextChan w).

Definition warn (x : warning) (w : World) : World :=
  mkWorld (registry w) (x :: warnings w) (pollers w) (nextChan w).

(** [out.done = make(chan struct{}); go out.poll(addr, poll, log)] *)
Definition spawnPoller (addr : list string) (each : GoTime.Duration) (w : World)
  : Chan * World :=
  let c := chan (nextChan w) in
  (c, mkWorld (registry w) (warnings w) (mkPoller c addr each :: pollers w)
              (S (nextChan w))).

(** [newInputMetrics(id, device, buflen, poll, log)] *)
Definition newInputMetrics (env : Env) (id device : string) (buflen : Z)
    (poll : GoTime.Duration) (w : World) : option inputMetrics * World :=
  if String.eqb id "" then (None, w)
  else
    let w := registerInput id w in
    let out :=
      mkInputMetrics id None 0 device 0 0 (Monitoring.Set_ 0 buflen) 0 0
        (Metrics.NewUniformSample 1024) (Metrics.NewUniformSample 1024) in
    if (0 <? poll) && String.eqb (GOOS env) "linux" then
      match resolveAddr env device with
      | inl x => (Some out, warn x w)
      | inr addr =>
          let '(c, w) := spawnPoller addr poll w in
          (Some (set_done (Some c) out), w)
      end
    else (Some out, w).

(** [log(data, timestamp)], a method of [*inputMetrics] *)
Definition log (m : option inputMetrics) (data : string) (timestamp : GoTime.Time)
    (amb : Ambient) : option inputMetrics :=
  match m with
  | None => None
  | Some m =>
      let m := set_processingTime
                 (Metrics.Update (processingTime m)
                    (GoTime.Nanoseconds (GoTime.Since (now amb) timestamp))
                    (drawProcessing amb)) m in
      let m := set_packets (Monitoring.Add (packets m) 1) m in
      let m := set_bytes
                 (Monitoring.Add (bytes m)
                    (Monitoring.uint64 (Z.of_nat (String.length data)))) m in
      let m := if negb (GoTime.IsZero (lastPacket m))
               then set_arrivalPeriod
                      (Metrics.Update (arrivalPeriod m)
                         (GoTime.Nanoseconds (GoTime.Sub timestamp (lastPacket m)))
                         (drawArrival amb)) m
               else m in
      Some (set_lastPacket timestamp m)
  end.

(** [contains(b, addr)] *)
Fixpoint contains (b : string) (addr : list string) : bool :=
  match addr with
  | [] => false
  | a :: rest => if GoStrings.EqualFold b a then true else contains b rest
  end.

(** The file system as [os.ReadFile] sees it at one moment. *)
Definition FS : Type := string -> result string.

(** The body of the branch of [procNetUDP] taken on a matching line with
    fields [f]. *)
Definition extract (f : list string) : result (Z * Z) :=
  match GoBytes.Cut (nth 4 f "") ":" with
  | (_, r, ok) =>
      if negb ok then Err (ENoRxQueue (nth 4 f ""))
      else
        match Strconv.ParseInt r 16 64 with
        | Err e => Err (EParseRxQueue e)
        | Ok rx =>
            match Strconv.ParseInt (nth 12 f "") 16 64 with
            | Err e => Err (EParseDrops e)
            | Ok drops => Ok (rx, drops)
            end
        end
  end.

(** The loop of [procNetUDP] over [lines[1:]]. *)
Fixpoint scanLines (path : string) (addr : list string) (lines : list string)
  : result (Z * Z) :=
  match lines with
  | [] => Err (ENotFound path addr)
  | l :: rest =>
      let f := GoBytes.Fields l in
      if (12 <? length f)%nat && contains (nth 1 f "") addr
      then extract f
      else scanLines path addr rest
  end.

(** [procNetUDP(path, addr)] *)
Definition procNetUDP (fs : FS) (path : string) (addr : list string)
  : result (Z * Z) :=
  match fs path with
  | Err e => Err e
  | Ok b =>
      let lines := GoBytes.Split b "010" in
      if (length lines <? 2)%nat then Err (ENoLine path addr)
      else scanLines path addr (tl lines)
  end.

(** The branch [case <-t.C] of [poll]: one reading of the kernel table
    and, when it succeeds, the two gauge writes. *)
Definition tick (fs : FS) (addr : list string) (m : inputMetrics)
  : inputMetrics * list warning :=
  match procNetUDP fs "/proc/net/udp" addr with
  | Err e => (m, [WarnProc e])
  | Ok (rx, dr) =>
      let m := set_rxQueue (Monitoring.Set_ (rxQueue m) (Monitoring.uint64 rx)) m in
      let m := set_drops (Monitoring.Set_ (drops m) (Monitoring.uint64 dr)) m in
      (m, [])
  end.

(** What one [select] of [poll] takes: the ticker's channel, with the
    file system as it is at that moment, or the [done] channel. *)
Inductive selected : Type :=
| Tick (fs : FS)
| Stop.

(** [poll(addr, each, log)], a method of [*inputMetrics] along a sequence of
    selections: the object and the warnings at the end, and whether the
    function has returned. *)
Fixpoint poll (m : inputMetrics) (addr : list string) (each : GoTime.Duration)
    (sel : list selected) : inputMetrics * list warning * bool :=
  match sel with
  | [] => (m, [], false)
  | Tick fs :: rest =>
      let '(m1, ws1) := tick fs addr m in
      let '(m2, ws2, ret) := poll m1 addr each rest in
      (m2, (ws1 ++ ws2)%list, ret)
  | Stop :: _ => (m, [], true)
  end.

Definition chan_eqb (a b : Chan) : bool :=
  match a, b with chan x, chan y => Nat.eqb x y end.

Definition listens (c : Chan) (p : poller) : bool := chan_eqb (pDone p) c.

(** The goroutine that waits on [c] has returned. *)
Definition dropPoller (c : Chan) (w : World) : World :=
  mkWorld (registry w) (warnings w)
    (filter (fun p => negb (listens c p)) (pollers w)) (nextChan w).

(** How a call of [close] ends: it returns, or it stays blocked in the
    send on [done]. *)
Inductive outcome : Type :=
| Returned (w : World)
| Blocked (w : World).

(** [m.done <- struct{}{}] on the unbuffered channel [c]: the send
    completes when a poller takes [case <-m.done], which then stops its
    ticker and returns; with no poller on [c] the send never
    completes. *)
Definition send (c : Chan) (w : World) : outcome :=
  if existsb (listens c) (pollers w)
  then Returned (dropPoller c w)
  else Blocked w.

(** [close()], a method of [*inputMetrics] *)
Definition close (m : option inputMetrics) (w : World) : outcome :=
  match m with
  | None => Returned w
  | Some m =>
      match (match done m with
             | Some c => send c w
             | None => Returned w
             end) with
      | Blocked w => Blocked w
      | Returned w => Returned (unregisterInput (unregister m) w)
      end
  end.

(** The states of the poller: never started, ticking, ended. *)
Inductive PollerState : Type := Idle | Running | Stopped.

Definition pollerState (m : inputMetrics) (w : World) : PollerState :=
  match done m with
  | None => Idle
  | Some c => if existsb (listens c) (pollers w) then Running else Stopped
  end.

(** ** The caller of [close] and the poller, interleaved

    [newInputMetrics] starts [poll] as a goroutine on the object it
    returns, so the loop of [poll] and the body of [close] run
    concurrently on one shared [inputMetrics].  The state below holds
    that object once, with the place each of the two has reached; a step
    is one atomic action of one of them, or the hand-over on the
    unbuffered channel [done], which is one action of both. *)
Module Handshake.

(** Where the owner of the object is.  (The receive loop may call [log]
    at any moment, whatever the place of the owner.) *)
Inductive owner : Type :=
| Working        (* [close] not called yet *)
| Sending        (* in [close], blocked in [m.done <- struct{}{}] *)
| Unregistering  (* in [close], the send is over, before [m.unregister()] *)
| Closed.        (* [close] has returned *)

(** Where the goroutine running [poll] is. *)
Inductive task : Type :=
| Selecting                   (* waiting in [select] *)
| Reading                     (* took [<-t.C], inside [procNetUDP] *)
| SettingRx (rx dr : Z)       (* before [m.rxQueue.Set(uint64(rx))] *)
| SettingDrops (dr : Z)       (* before [m.drops.Set(uint64(drops))] *)
| Stopping                    (* took [<-m.done], before [t.Stop()] *)
| Exited.                     (* [poll] has returned *)

(** The two places, the one shared object and the world. *)
Record state : Type := mkState {
  own : owner;
  bg : task;
  obj : inputMetrics;
  world : World
}.

(** The poller has taken the stop signal. *)
Definition observed (t : task) : bool :=
  match t with
  | Stopping | Exited => true
  | _ => false
  end.

Section Steps.

(** The keys handed to [poll] when it was started. *)
Variable addr : list string.

Inductive step : state -> state -> Prop :=
| step_log s data timestamp amb m' :
    log (Some (obj s)) data timestamp amb = Some m' ->
    step s (mkState (own s) (bg s) m' (world s))
| step_close s c :
    own s = Working ->
    done (obj s) = Some c ->
    step s (mkState Sending (bg s) (obj s) (world s))
| step_tick s :
    bg s = Selecting ->
    step s (mkState (own s) Reading (obj s) (world s))
| step_read_ok s (fs : FS) rx dr :
    bg s = Reading ->
    procNetUDP fs "/proc/net/udp" addr = Ok (rx, dr) ->
    step s (mkState (own s) (SettingRx rx dr) (obj s) (world s))
| step_read_fail s (fs : FS) e :
    bg s = Reading ->
    procNetUDP fs "/proc/net/udp" addr = Err e ->
    step s (mkState (own s) Selecting (obj s) (warn (WarnProc e) (world s)))
| step_set_rx s rx dr :
    bg s = SettingRx rx dr ->
    step s (mkState (own s) (SettingDrops dr)
              (set_rxQueue (Monitoring.Set_ (rxQueue (obj s)) (Monitoring.uint64 rx))
                 (obj s))
              (world s))
| step_set_drops s dr :
    bg s = SettingDrops dr ->
    step s (mkState (own s) Selecting
              (set_drops (Monitoring.Set_ (drops (obj s)) (Monitoring.uint64 dr))
                 (obj s))
              (world s))
| step_handover s :
    own s = Sending ->
    bg s = Selecting ->
    step s (mkState Unregistering Stopping (obj s) (world s))
| step_ticker_stop s c :
    bg s = Stopping ->
    done (obj s) = Some c ->
    step s (mkState (own s) Exited (obj s) (dropPoller c (world s)))
| step_unregister s :
    own s = Unregistering ->
    step s (mkState Closed (bg s) (obj s)
              (unregisterInput (unregister (obj s)) (world s))).

(** A run: any number of steps. *)
Definition steps : state -> state -> Prop := rtc step.

End Steps.

(** The invariant of the handshake: once the send of [close] is over,
    the poller has taken the stop signal. *)
Definition sendDoneImpliesObserved (s : state) : Prop :=
  match own s with
  | Unregistering | Closed => observed (bg s) = true
  | Working | Sending => True
  end.

(** As long as [close] has not returned, the names of the input [id]
    are in the registry; and [id] is what the object unregisters. *)
Definition registeredUntilClosed (id : string) (names : list string) (s : state)
  : Prop :=
  unregister (obj s) = id
  /\ (own s <> Closed -> registry (world s) !! id = Some names).

(** The poller has taken the stop signal exactly when the send of
    [close] is over, and the object has its channel. *)
Definition inStep (s : state) : Prop :=
  is_Some (done (obj s))
  /\ match own s with
     | Working | Sending => observed (bg s) = false
     | Unregistering | Closed => observed (bg s) = true
     end.

(** A start: the poller is live (possibly in the middle of a poll)
    and [close] has not been called. *)
Definition started (s : state) : Prop :=
  own s = Working /\ observed (bg s) = false /\ is_Some (done (obj s)).

End Handshake.

(** ** package udp: the input and its callback *)

(** The values of a [mapstr.M] that the callback builds: booleans,
    strings and maps. *)
#[warnings="-register-all"]
Inductive mval : Type :=
| MBool (b : bool)
| MString (s : string)
| MMap (m : gmap string mval).

(** [beat.Event], with the three fields the callback sets. *)
Record Event : Type := mkEvent {
  Timestamp : GoTime.Time;
  Meta : gmap string mval;
  Fields : gmap string mval
}.

(** [inputsource.NetworkMetadata]; [RemoteAddr] is nil or an address,
    known by its text. *)
Record NetworkMetadata : Type := mkNetworkMetadata {
  RemoteAddr : option string;
  Truncated : bool
}.

(** The callback that [Run] hands to [udp.New], called once for every
    packet: it builds the event at the clock reading [tNow], adds the
    source address when there is one, publishes the event (the events
    published so far are [published]) and then calls [metrics.log] with
    the time of the event. *)
Definition onPacket (metrics : option inputMetrics) (published : list Event)
    (data : string) (metadata : NetworkMetadata) (tNow : GoTime.Time)
    (amb : Ambient) : list Event * option inputMetrics :=
  let evt :=
    mkEvent tNow {["truncated" := MBool (Truncated metadata)]}
            {["message" := MString data]} in
  let evt :=
    match RemoteAddr metadata with
    | Some a =>
        mkEvent (Timestamp evt) (Meta evt)
          (<["log" := MMap {["source" := MMap {["address" := MString a]}]}]>
             (Fields evt))
    | None => evt
    end in
  ((published ++ [evt])%list, log metrics data (Timestamp evt) amb).

(** A packet as the server hands it to the callback, with the clock
    reading at which the event is made and what [log] reads later. *)
Record packet : Type := mkPacket {
  pkData : string;
  pkMeta : NetworkMetadata;
  pkNow : GoTime.Time;
  pkAmbient : Ambient
}.

(** The callback along the packets that the server receives. *)
Fixpoint serve (metrics : option inputMetrics) (published : list Event)
    (pkts : list packet) : list Event * option inputMetrics :=
  match pkts with
  | [] => (published, metrics)
  | p :: rest =>
      let '(published, metrics) :=
        onPacket metrics published (pkData p) (pkMeta p) (pkNow p) (pkAmbient p) in
      serve metrics published rest
  end.

(** [time.Minute], the poll interval of [Run]. *)
Definition Minute : GoTime.Duration := 60000000000.

(** [(s *server).Run(ctx, publisher)] for an input with identifier
    [id], host [host] and read buffer [readBuffer], along the packets
    that [server.Run] receives before it returns: the metrics are made,
    the callback runs for each packet, and the deferred [close] runs at
    the end.  The result is the events published, how [close] ends, and
    the error returned: that of the cancellation when there is one,
    else that of the server.  (The poller goroutine that the
    constructor may start runs beside this; see [Handshake].) *)
Definition Run (env : Env) (id host : string) (readBuffer : Z)
    (pkts : list packet) (serverErr ctxErr : option error) (w : World)
  : list Event * outcome * option error :=
  let '(metrics, w) :=
    newInputMetrics env id host (Monitoring.uint64 readBuffer) Minute w in
  let '(published, metrics) := serve metrics [] pkts in
  let err := match ctxErr with Some e => Some e | None => serverErr end in
  (published, close metrics w, err).

(** The text of the message of an event. *)
Definition message (e : Event) : option mval := Fields e !! "message".

(** ** Sequences of calls, and the data of the examples *)

(** One call [metrics.log(data, timestamp)] with what it reads from its
    surroundings. *)
Record call : Type := mkCall {
  cData : string;
  cTimestamp : GoTime.Time;
  cAmbient : Ambient
}.

(** The calls of [log] made one after the other on the same object. *)
Fixpoint logAll (m : option inputMetrics) (calls : list call) : option inputMetrics :=
  match calls with
  | [] => m
  | c :: rest => logAll (log m (cData c) (cTimestamp c) (cAmbient c)) rest
  end.

Definition sumSizes (calls : list call) : Z :=
  fold_right (fun c acc => Z.of_nat (String.length (cData c)) + acc) 0 calls.

(** The receipt times grow strictly along the calls. *)
Fixpoint increasing (calls : list call) : Prop :=
  match calls with
  | [] => True
  | c :: rest =>
      match rest with
      | [] => True
      | c' :: _ => cTimestamp c < cTimestamp c'
      end /\ increasing rest
  end.

(** 127.0.0.1 in the 16-byte form that the resolver returns. *)
Definition loopback16 : Net.IP :=
  [ Byte.x00; Byte.x00; Byte.x00; Byte.x00; Byte.x00; Byte.x00; Byte.x00; Byte.x00;
    Byte.x00; Byte.x00; Byte.xff; Byte.xff; Byte.x7f; Byte.x00; Byte.x00; Byte.x01 ].

(** ::1, which has no 4-byte form. *)
Definition loopbackV6 : Net.IP :=
  [ Byte.x00; Byte.x00; Byte.x00; Byte.x00; Byte.x00; Byte.x00; Byte.x00; Byte.x00;
    Byte.x00; Byte.x00; Byte.x00; Byte.x00; Byte.x00; Byte.x00; Byte.x00; Byte.x01 ].

(** A resolver that knows the literal 127.0.0.1 and the name
    [ip6-localhost], on a given operating system. *)
Definition literalEnv (goos : string) : Env :=
  mkEnv goos
    (fun host =>
       if String.eqb host "127.0.0.1" then Ok [loopback16]
       else if String.eqb host "ip6-localhost" then Ok [loopbackV6]
            else Err (ELookup host)).

Definition emptyWorld : World := mkWorld ∅ [] [] 0.

Definition newline : string := String "010" "".

Definition tableHeader : string :=
  "  sl  local_address rem_address   st tx_queue rx_queue tr tm->when retrnsmt   uid  timeout inode ref pointer drops".

(** A row of the kernel table for the socket 127.0.0.1:8080, as the
    kernel prints it: thirteen fields. *)
Definition tableRow : string :=
  "  500: 0100007F:1F90 00000000:0000 07 00000000:0000001A 00:00000000 00000000     0        0 21040 2 0000000000000000 5".

Definition table : string := tableHeader ++ newline ++ tableRow ++ newline.

(** A file system whose every file reads as [b], and one with no
    readable file. *)
Definition fileWith (b : string) : FS := fun _ => Ok b.
Definition noFile : FS := fun path => Err (EReadFile path).

(** Every byte of a text passes a test. *)
Fixpoint stringForall (f : ascii -> bool) (s : string) : bool :=
  match s with
  | EmptyString => true
  | String c s' => f c && stringForall f s'
  end.

Definition decimalDigit (c : ascii) : bool :=
  (code "0" <=? code c) && (code c <=? code "9").

Definition upperHexDigit (c : ascii) : bool :=
  decimalDigit c || ((code "A" <=? code c) && (code c <=? code "F")).

(** The number that a text of decimal digits writes, read after the
    digits of [n]. *)
Fixpoint decimalFrom (n : Z) (s : string) : Z :=
  match s with
  | EmptyString => n
  | String c s' => decimalFrom (n * 10 + (code c - code "0")) s'
  end.

Definition decimalValue (s : string) : Z := decimalFrom 0 s.

(** The object that [newInputMetrics] builds, before [done] is set. *)
Definition freshMetrics (id device0 : string) (buflen : Z) : inputMetrics :=
  mkInputMetrics id None 0 device0 0 0 buflen 0 0
    (Metrics.NewUniformSample 1024) (Metrics.NewUniformSample 1024).

(** A live object with its poller in the middle of a reading, before
    [close] is called; and the state after that reading has set both
    gauges and [close] has returned. *)
Definition liveMetrics : inputMetrics :=
  set_done (Some (chan 0)) (freshMetrics "udp-1" "127.0.0.1:8080" 0).

Definition liveWorld : World :=
  mkWorld (<["udp-1" := metricNames]> ∅) []
    [mkPoller (chan 0) ["0100007F:1F90"] 60000000000] 1.

Definition pollInFlight : Handshake.state :=
  Handshake.mkState Handshake.Working Handshake.Reading liveMetrics liveWorld.

Definition closedAfterPoll : Handshake.state :=
  Handshake.mkState Handshake.Closed Handshake.Stopping
    (set_drops 5 (set_rxQueue 26 liveMetrics))
    (unregisterInput "udp-1" liveWorld).

(** The number that a text of digits of a base writes, read after the
    digits of [n]; a byte that is no digit ends the reading. *)
Fixpoint valueFrom (base n : Z) (s : string) : Z :=
  match s with
  | EmptyString => n
  | String c s' =>
      match Strconv.digitVal c with
      | Some d => valueFrom base (n * base + d) s'
      | None => n
      end
  end.

Definition isDigitOf (base : Z) (c : ascii) : bool :=
  match Strconv.digitVal c with
  | Some d => d <? base
  | None => false
  end.

(** A text of hexadecimal digits (of either case) and its value. *)
Definition hexText (s : string) : bool := stringForall (isDigitOf 16) s.
Definition hexValue (s : string) : Z := valueFrom 16 0 s.

(** The byte [c] does not occur in [s]. *)
Definition without (c : ascii) (s : string) : bool :=
  stringForall (fun x => negb (Ascii.eqb x c)) s.

(** The guard of the loop of [procNetUDP] on one line:
    [len(f) > 12 && contains(f[1], addr)]. *)
Definition candidate (addr : list string) (l : string) : bool :=
  (12 <? length (GoBytes.Fields l))%nat
  && contains (nth 1 (GoBytes.Fields l) "") addr.

(** A table with two rows for the same socket. *)
Definition tableRow2 : string :=
  "  501: 0100007F:1F90 00000000:0000 07 00000000:000000FF 00:00000000 00000000     0        0 21041 2 0000000000000000 9".

Definition table2 : string :=
  tableHeader ++ newline ++ tableRow ++ newline ++ tableRow2 ++ newline.

(** The two reservoirs have the size 1024 and are not over it. *)
Definition reservoirsWithin (m : inputMetrics) : Prop :=
  Metrics.reservoirSize (processingTime m) = 1024
  /\ Metrics.reservoirSize (arrivalPeriod m) = 1024
  /\ Z.of_nat (length (Metrics.values (processingTime m))) <= 1024
  /\ Z.of_nat (length (Metrics.values (arrivalPeriod m))) <= 1024.

(** Every channel of a live poller was made before the next fresh
    one. *)
Definition freshChans (w : World) : Prop :=
  Forall (fun p => match pDone p with chan i => (i < nextChan w)%nat end)
         (pollers w).

(** The selection is a tick whose reading fails, or the stop.  *)
Definition fails (addr : list string) (s : selected) : Prop :=
  match s with
  | Tick fs => isOk (procNetUDP fs "/proc/net/udp" addr) = false
  | Stop => True
  end.

Definition isTick (s : selected) : Prop :=
  match s with
  | Tick _ => True
  | Stop => False
  end.

(** The address has a 4-byte form. *)
Definition hasV4 (ip : Net.IP) : bool := (length (Net.To4 ip) =? Net.IPv4len)%nat.

(** The key of a 4-byte address and of the text of a port. *)
Definition keyOf (ph : string) (ip : Net.IP) : string :=
  Fmt.Sprintf_X_s (Binary.LittleEndian_Uint32 (Net.To4 ip)) ph.

(** The call of [log] that the callback makes for a packet. *)
Definition callOf (p : packet) : call :=
  mkCall (pkData p) (pkNow p) (pkAmbient p).

(** Two packets, one with a source address and one without. *)
Definition twoPackets : list packet :=
  [ mkPacket "ab" (mkNetworkMetadata (Some "10.0.0.7:5514") false) 10 (mkAmbient 12 0 0);
    mkPacket "cde" (mkNetworkMetadata None true) 20 (mkAmbient 21 0 0) ].

(** A text of ASCII bytes (below 0x80), on which [strings.EqualFold]
    runs its ASCII loop only. *)
Definition asciiText (s : string) : bool :=
  stringForall (fun c => code c <? 128) s.

(** The poll that was in flight has set both gauges and the owner
    waits in the send of [close]. *)
Definition sendingAfterPoll : Handshake.state :=
  Handshake.mkState Handshake.Sending Handshake.Selecting
    (set_drops 5 (set_rxQueue 26 liveMetrics)) liveWorld.

(** ** The inert object *)

Lemma log_nil data timestamp amb : log None data timestamp amb = None.
Proof. reflexivity. Qed.

Lemma logAll_nil calls : logAll None calls = None.
Proof. induction calls as [|c rest IH]; simpl; auto. Qed.

Lemma newInputMetrics_empty_id env device0 buflen poll0 w :
  newInputMetrics env "" device0 buflen poll0 w = (None, w).
Proof. reflexivity. Qed.

(** C8. An object constructed with the empty identifier is nil and the
    world is left as it was (nothing registered, no warning, no poller,
    no channel, no sample made); every later sequence of [log] calls
    leaves it nil, and [close] returns at once with the world, its
    registry included, unchanged. *)
Theorem empty_id_inert :
  forall env device0 buflen poll0 w,
    newInputMetrics env "" device0 buflen poll0 w = (None, w)
    /\ (forall calls,
          logAll (fst (newInputMetrics env "" device0 buflen poll0 w)) calls = None)
    /\ (forall data timestamp amb,
          log (fst (newInputMetrics env "" device0 buflen poll0 w)) data timestamp amb
          = None)
    /\ (forall w',
          close (fst (newInputMetrics env "" device0 buflen poll0 w)) w' = Returned w').
Proof.
  intros env device0 buflen poll0 w.
  rewrite newInputMetrics_empty_id. simpl.
  repeat split; auto using logAll_nil.
Qed.

(** ** The accounting of [log] *)

Lemma uint64_idem x : Monitoring.uint64 (Monitoring.uint64 x) = Monitoring.uint64 x.
Proof. unfold Monitoring.uint64. apply Z.mod_mod. lia. Qed.

Lemma uint64_small x : 0 <= x < 2 ^ 64 -> Monitoring.uint64 x = x.
Proof. intros H. unfold Monitoring.uint64. apply Z.mod_small. exact H. Qed.

(** What one call does to each field of a live object. *)
Lemma log_fields m data timestamp amb :
  exists m',
    log (Some m) data timestamp amb = Some m'
    /\ packets m' = Monitoring.uint64 (packets m + 1)
    /\ bytes m' = Monitoring.uint64 (bytes m + Z.of_nat (String.length data))
    /\ processingTime m'
       = Metrics.Update (processingTime m)
           (GoTime.Nanoseconds (GoTime.Since (now amb) timestamp))
           (drawProcessing amb)
    /\ lastPacket m' = timestamp
    /\ rxQueue m' = rxQueue m /\ drops m' = drops m
    /\ done m' = done m /\ unregister m' = unregister m.
Proof.
  destruct m as [u d lp dev pk by_ bl rx dr ap pt].
  unfold log; simpl.
  destruct (GoTime.IsZero lp); simpl; eexists; (split; [reflexivity|]); simpl;
    unfold Monitoring.Add, Monitoring.uint64;
    rewrite Zplus_mod_idemp_r; repeat split; reflexivity.
Qed.

(** After any sequence of calls the counters hold the number of calls
    and the sum of the sizes, as unsigned 64-bit integers. *)
Lemma logAll_counters calls :
  forall m,
    packets m = Monitoring.uint64 (packets m) ->
    bytes m = Monitoring.uint64 (bytes m) ->
    exists m',
      logAll (Some m) calls = Some m'
      /\ packets m' = Monitoring.uint64 (packets m + Z.of_nat (length calls))
      /\ bytes m' = Monitoring.uint64 (bytes m + sumSizes calls)
      /\ rxQueue m' = rxQueue m /\ drops m' = drops m.
Proof.
  induction calls as [|c rest IH]; intros m Hp Hb.
  - exists m. simpl. rewrite !Z.add_0_r. auto.
  - destruct (log_fields m (cData c) (cTimestamp c) (cAmbient c))
      as (m1 & Hlog & Hp1 & Hb1 & _ & _ & Hrx & Hdr & _).
    destruct (IH m1) as (m' & Hall & Hp' & Hb' & Hrx' & Hdr').
    + rewrite Hp1. symmetry. apply uint64_idem.
    + rewrite Hb1. symmetry. apply uint64_idem.
    + exists m'.
      change (logAll (Some m) (c :: rest))
        with (logAll (log (Some m) (cData c) (cTimestamp c) (cAmbient c)) rest).
      rewrite Hlog. split; [exact Hall|].
      rewrite Hp', Hb', Hp1, Hb1. unfold Monitoring.uint64.
      rewrite !Zplus_mod_idemp_l.
      change (sumSizes (c :: rest))
        with (Z.of_nat (String.length (cData c)) + sumSizes rest).
      cbn [length]. rewrite Nat2Z.inj_succ.
      split; [apply (f_equal (fun x => x mod 2 ^ 64)); lia|].
      split; [apply (f_equal (fun x => x mod 2 ^ 64)); lia|].
      split; congruence.
Qed.

(** The object of a non-empty identifier starts with both counters, both
    gauges and the last receipt time at zero. *)
Lemma newInputMetrics_fresh env id device0 buflen poll0 w :
  id <> "" ->
  exists m,
    fst (newInputMetrics env id device0 buflen poll0 w) = Some m
    /\ packets m = 0 /\ bytes m = 0 /\ rxQueue m = 0 /\ drops m = 0
    /\ lastPacket m = 0 /\ unregister m = id
    /\ Metrics.values (processingTime m) = []
    /\ Metrics.values (arrivalPeriod m) = [].
Proof.
  intros Hid. unfold newInputMetrics.
  destruct (String.eqb id "") eqn:E.
  - apply String.eqb_eq in E. contradiction.
  - destruct ((0 <? poll0) && String.eqb (GOOS env) "linux").
    + destruct (resolveAddr env device0) as [x|addr]; simpl.
      * eexists. split; [reflexivity|]. simpl. repeat split; reflexivity.
      * eexists. split; [reflexivity|]. simpl. repeat split; reflexivity.
    + eexists. split; [reflexivity|]. simpl. repeat split; reflexivity.
Qed.

(** C2. On an object made with a non-empty identifier, after any
    sequence of [log] calls (whatever the receipt times, so in
    particular for strictly increasing ones) whose number and whose
    total size fit the unsigned 64-bit counters, the packet counter is
    the number of calls and the byte counter is the sum of the sizes. *)
Theorem log_counts_packets_and_bytes :
  forall env id device0 buflen poll0 w calls,
    id <> "" ->
    increasing calls ->
    Z.of_nat (length calls) < 2 ^ 64 ->
    sumSizes calls < 2 ^ 64 ->
    exists m,
      logAll (fst (newInputMetrics env id device0 buflen poll0 w)) calls = Some m
      /\ packets m = Z.of_nat (length calls)
      /\ bytes m = sumSizes calls.
Proof.
  intros env id device0 buflen poll0 w calls Hid _ Hn Hs.
  destruct (newInputMetrics_fresh env id device0 buflen poll0 w Hid)
    as (m0 & Hm0 & Hp0 & Hb0 & _).
  destruct (logAll_counters calls m0) as (m & Hall & Hp & Hb & _).
  - rewrite Hp0. reflexivity.
  - rewrite Hb0. reflexivity.
  - exists m. rewrite Hm0. split; [exact Hall|].
    assert (Hnn : 0 <= sumSizes calls).
    { clear. induction calls as [|c rest IH]; simpl; lia. }
    rewrite Hp, Hb, Hp0, Hb0. simpl.
    split; apply uint64_small; lia.
Qed.

Lemma log_counts_witness :
  exists m,
    logAll (fst (newInputMetrics (literalEnv "linux") "udp-1" "127.0.0.1:8080"
                   0 60000000000 emptyWorld))
      [ mkCall "ab" 10 (mkAmbient 11 0 0); mkCall "cde" 20 (mkAmbient 21 0 0) ]
    = Some m
    /\ packets m = 2 /\ bytes m = 5.
Proof.
  apply (log_counts_packets_and_bytes (literalEnv "linux") "udp-1" "127.0.0.1:8080"
           0 60000000000 emptyWorld
           [ mkCall "ab" 10 (mkAmbient 11 0 0); mkCall "cde" 20 (mkAmbient 21 0 0) ]).
  - discriminate.
  - simpl. lia.
  - simpl. lia.
  - simpl. lia.
Defined.

(** ** The latency that [log] records *)

Lemma sub_nonneg_iff t u : 0 <= GoTime.Sub t u <-> u <= t.
Proof.
  unfold GoTime.Sub, GoTime.minDuration, GoTime.maxDuration.
  destruct (t - u <? - 2 ^ 63) eqn:E1; [apply Z.ltb_lt in E1; lia|].
  apply Z.ltb_ge in E1.
  destruct (2 ^ 63 - 1 <? t - u) eqn:E2; [apply Z.ltb_lt in E2; lia|].
  apply Z.ltb_ge in E2. lia.
Qed.

Lemma sub_clamped t u :
  GoTime.Sub t u = Z.max GoTime.minDuration (Z.min GoTime.maxDuration (t - u)).
Proof.
  unfold GoTime.Sub, GoTime.minDuration, GoTime.maxDuration.
  destruct (t - u <? - 2 ^ 63) eqn:E1; [apply Z.ltb_lt in E1; lia|].
  apply Z.ltb_ge in E1.
  destruct (2 ^ 63 - 1 <? t - u) eqn:E2; [apply Z.ltb_lt in E2; lia|].
  apply Z.ltb_ge in E2. lia.
Qed.

(** While the reservoir has room, the value offered is its new last
    element. *)
Lemma update_appends s v r :
  Z.of_nat (length (Metrics.values s)) < Metrics.reservoirSize s ->
  Metrics.values (Metrics.Update s v r) = (Metrics.values s ++ [v])%list.
Proof.
  intros H. unfold Metrics.Update.
  apply Z.ltb_lt in H. rewrite H. reflexivity.
Qed.

(** C7, as the code has it. Every [log] call on a live object offers to
    the [processingTime] sample the difference between the clock
    reading and the receipt time in nanoseconds, cut to the range of a
    signed 64-bit duration and not raised to zero: the value is
    non-negative exactly when the receipt time is not after the clock
    reading. *)
Theorem log_latency_is_since :
  forall m data timestamp amb,
    exists m' v,
      log (Some m) data timestamp amb = Some m'
      /\ processingTime m' = Metrics.Update (processingTime m) v (drawProcessing amb)
      /\ v = Z.max GoTime.minDuration
               (Z.min GoTime.maxDuration (now amb - timestamp))
      /\ (0 <= v <-> timestamp <= now amb).
Proof.
  intros m data timestamp amb.
  destruct (log_fields m data timestamp amb) as (m' & Hlog & _ & _ & Hpt & _).
  exists m', (GoTime.Sub (now amb) timestamp).
  split; [exact Hlog|]. split; [exact Hpt|].
  split; [apply sub_clamped | apply sub_nonneg_iff].
Qed.

(** C7 as stated fails: with the clock at 5 and a receipt time of 10
    the first call puts -5 in the sample. *)
Lemma log_latency_negative :
  exists m',
    log (fst (newInputMetrics (literalEnv "linux") "udp-1" "127.0.0.1:8080"
                0 60000000000 emptyWorld))
        "x" 10 (mkAmbient 5 0 0) = Some m'
    /\ Metrics.values (processingTime m') = [-5]
    /\ ~ (0 <= -5).
Proof.
  eexists. split; [reflexivity|]. split; [reflexivity | lia].
Qed.

(** ** One tick of the poller *)

Lemma tick_error fs addr m e :
  procNetUDP fs "/proc/net/udp" addr = Err e ->
  tick fs addr m = (m, [WarnProc e]).
Proof. intros H. unfold tick. rewrite H. reflexivity. Qed.

Lemma tick_ok fs addr m rx dr :
  procNetUDP fs "/proc/net/udp" addr = Ok (rx, dr) ->
  tick fs addr m
  = (set_drops (Monitoring.uint64 dr) (set_rxQueue (Monitoring.uint64 rx) m), []).
Proof. intros H. unfold tick. rewrite H. reflexivity. Qed.

(** The ways a reading fails: the file cannot be read, the text has no
    second line, no line matches, or the matching line is malformed. *)
Lemma procNetUDP_unreadable fs path addr e :
  fs path = Err e -> procNetUDP fs path addr = Err e.
Proof. intros H. unfold procNetUDP. rewrite H. reflexivity. Qed.

Lemma procNetUDP_short fs path addr b :
  fs path = Ok b ->
  (length (GoBytes.Split b "010") < 2)%nat ->
  procNetUDP fs path addr = Err (ENoLine path addr).
Proof.
  intros H Hlen. unfold procNetUDP. rewrite H.
  apply Nat.ltb_lt in Hlen. rewrite Hlen. reflexivity.
Qed.

Lemma scanLines_no_match path addr lines :
  Forall (fun l => contains (nth 1 (GoBytes.Fields l) "") addr = false) lines ->
  scanLines path addr lines = Err (ENotFound path addr).
Proof.
  induction 1 as [|l rest Hl _ IH]; simpl.
  - reflexivity.
  - rewrite Hl, andb_false_r. exact IH.
Qed.

Lemma scanLines_malformed path addr l rest e :
  (12 < length (GoBytes.Fields l))%nat ->
  contains (nth 1 (GoBytes.Fields l) "") addr = true ->
  extract (GoBytes.Fields l) = Err e ->
  scanLines path addr (l :: rest) = Err e.
Proof.
  intros Hlen Hc He. simpl.
  apply Nat.ltb_lt in Hlen. rewrite Hlen, Hc. exact He.
Qed.

(** A tick whose reading succeeds overwrites both gauges with the
    values read, converted to unsigned 64-bit integers. *)
Lemma tick_success_sets_gauges fs addr m rx dr :
  procNetUDP fs "/proc/net/udp" addr = Ok (rx, dr) ->
  rxQueue (fst (tick fs addr m)) = Monitoring.uint64 rx
  /\ drops (fst (tick fs addr m)) = Monitoring.uint64 dr.
Proof. intros H. rewrite (tick_ok _ _ _ _ _ H). simpl. auto. Qed.

(** A tick that changes a gauge is a tick whose reading succeeded. *)
Lemma tick_change_needs_success fs addr m :
  rxQueue (fst (tick fs addr m)) <> rxQueue m
  \/ drops (fst (tick fs addr m)) <> drops m ->
  exists rx dr, procNetUDP fs "/proc/net/udp" addr = Ok (rx, dr).
Proof.
  intros H. destruct (procNetUDP fs "/proc/net/udp" addr) as [[rx dr]|e] eqn:E.
  - eauto.
  - rewrite (tick_error _ _ _ _ E) in H. simpl in H. destruct H; contradiction.
Qed.

(** C3. On a tick whose reading of the kernel table fails, for whatever
    reason (file unreadable, no second line, no matching line, malformed
    subfield), the object is left as it was: the two gauges keep the
    values they had before the tick, and the failure is logged as one
    warning. *)
Theorem tick_failure_keeps_gauges :
  forall fs addr m e,
    procNetUDP fs "/proc/net/udp" addr = Err e ->
    fst (tick fs addr m) = m
    /\ rxQueue (fst (tick fs addr m)) = rxQueue m
    /\ drops (fst (tick fs addr m)) = drops m
    /\ snd (tick fs addr m) = [WarnProc e].
Proof.
  intros fs addr m e H. rewrite (tick_error _ _ _ _ H). simpl. auto.
Qed.

Lemma tick_failure_witness :
  rxQueue (fst (tick noFile ["100007F:1f90"]
                  (set_drops 3 (set_rxQueue 7
                     (mkInputMetrics "udp-1" None 0 "127.0.0.1:8080" 0 0 0 0 0
                        (Metrics.NewUniformSample 1024)
                        (Metrics.NewUniformSample 1024)))))) = 7
  /\ drops (fst (tick noFile ["100007F:1f90"]
                  (set_drops 3 (set_rxQueue 7
                     (mkInputMetrics "udp-1" None 0 "127.0.0.1:8080" 0 0 0 0 0
                        (Metrics.NewUniformSample 1024)
                        (Metrics.NewUniformSample 1024)))))) = 3.
Proof.
  destruct (tick_failure_keeps_gauges noFile ["100007F:1f90"]
              (set_drops 3 (set_rxQueue 7
                 (mkInputMetrics "udp-1" None 0 "127.0.0.1:8080" 0 0 0 0 0
                    (Metrics.NewUniformSample 1024)
                    (Metrics.NewUniformSample 1024))))
              (EReadFile "/proc/net/udp"))
    as (_ & Hrx & Hdr & _).
  - reflexivity.
  - split; [exact Hrx | exact Hdr].
Defined.

(** Along a run of [poll] in which every reading fails, the gauges stay
    as they were at the start, however many ticks there are. *)
Lemma poll_all_fail_keeps_gauges addr each sel :
  forall m,
    Forall (fun s => match s with
                     | Tick fs => isOk (procNetUDP fs "/proc/net/udp" addr) = false
                     | Stop => True
                     end) sel ->
    fst (fst (poll m addr each sel)) = m.
Proof.
  induction sel as [|s rest IH]; intros m H.
  - reflexivity.
  - inversion H as [|? ? Hs Hrest]; subst.
    destruct s as [fs|].
    + simpl. destruct (procNetUDP fs "/proc/net/udp" addr) as [[rx dr]|e] eqn:E;
        [discriminate|].
      rewrite (tick_error _ _ _ _ E).
      specialize (IH m Hrest).
      destruct (poll m addr each rest) as [[m2 ws2] ret]. simpl in *. exact IH.
    + reflexivity.
Qed.

(** ** Which line of the table is read *)

Lemma contains_true_iff b addr :
  contains b addr = true <-> exists a, In a addr /\ GoStrings.EqualFold b a = true.
Proof.
  induction addr as [|a rest IH]; simpl.
  - split; [discriminate | intros (a & [] & _)].
  - destruct (GoStrings.EqualFold b a) eqn:E.
    + split; [intros _; exists a; auto | reflexivity].
    + rewrite IH. split.
      * intros (a' & Hin & Heq). exists a'. auto.
      * intros (a' & [Ha|Hin] & Heq); [subst; congruence | exists a'; auto].
Qed.

Lemma contains_false_iff b addr :
  contains b addr = false <-> forall a, In a addr -> GoStrings.EqualFold b a = false.
Proof.
  induction addr as [|a rest IH]; simpl.
  - split; [intros _ a [] | reflexivity].
  - destruct (GoStrings.EqualFold b a) eqn:E.
    + split; [discriminate | intros H; rewrite <- E; apply H; auto].
    + rewrite IH. split.
      * intros H a' [Ha|Hin]; [subst; exact E | apply H; exact Hin].
      * intros H a' Hin. apply H. auto.
Qed.

(** With no key, nothing matches. *)
Lemma contains_nil b : contains b [] = false.
Proof. reflexivity. Qed.

(** A line with at least thirteen fields whose second field equals a
    key, letter case apart, ends the scan: the result is read off that
    line and the lines after it are not looked at. *)
Lemma matching_line_decides path addr l rest a :
  (12 < length (GoBytes.Fields l))%nat ->
  In a addr ->
  GoStrings.EqualFold (nth 1 (GoBytes.Fields l) "") a = true ->
  scanLines path addr (l :: rest) = extract (GoBytes.Fields l).
Proof.
  intros Hlen Hin Heq. simpl.
  apply Nat.ltb_lt in Hlen. rewrite Hlen.
  assert (Hc : contains (nth 1 (GoBytes.Fields l) "") addr = true)
    by (apply contains_true_iff; eauto).
  rewrite Hc. reflexivity.
Qed.

(** C6, as the code has it. A line is a candidate only if it has more
    than 12 fields (at least thirteen) and its second field equals one
    of the keys, letter case apart: a line with 12 or fewer fields,
    whatever its second field, and a line whose second field equals no
    key, is passed over, and the scan goes on with the lines after it. *)
Theorem line_not_candidate_is_skipped :
  forall path addr l rest,
    (length (GoBytes.Fields l) <= 12)%nat
    \/ (forall a, In a addr ->
                  GoStrings.EqualFold (nth 1 (GoBytes.Fields l) "") a = false) ->
    scanLines path addr (l :: rest) = scanLines path addr rest.
Proof.
  intros path addr l rest [Hlen|Hno]; simpl.
  - apply Nat.ltb_ge in Hlen. rewrite Hlen. reflexivity.
  - apply contains_false_iff in Hno. rewrite Hno, andb_false_r. reflexivity.
Qed.

(** A row cut to its first twelve fields is passed over although its
    second field is the key. *)
Lemma line_not_candidate_witness :
  scanLines "/proc/net/udp" ["0100007F:1F90"]
    [ "500: 0100007F:1F90 00000000:0000 07 00000000:0000001A 00:00000000 00000000 0 0 21040 2 0" ]
  = Err (ENotFound "/proc/net/udp" ["0100007F:1F90"]).
Proof.
  rewrite (line_not_candidate_is_skipped "/proc/net/udp" ["0100007F:1F90"]
             "500: 0100007F:1F90 00000000:0000 07 00000000:0000001A 00:00000000 00000000 0 0 21040 2 0"
             []).
  - reflexivity.
  - left. vm_compute. lia.
Defined.

(** The row of the kernel table has thirteen fields and is read. *)
Lemma table_row_is_read :
  length (GoBytes.Fields tableRow) = 13%nat
  /\ procNetUDP (fileWith table) "/proc/net/udp" ["0100007F:1F90"] = Ok (26, 5).
Proof. split; vm_compute; reflexivity. Qed.

(** C6 as stated fails: a line with exactly 13 fields is not passed
    over. *)
Lemma thirteen_fields_are_read :
  ~ (forall path addr l rest,
        (length (GoBytes.Fields l) <= 13)%nat ->
        scanLines path addr (l :: rest) = scanLines path addr rest).
Proof.
  intros H.
  specialize (H "/proc/net/udp" ["0100007F:1F90"] tableRow []).
  assert (Hlen : (length (GoBytes.Fields tableRow) <= 13)%nat)
    by (vm_compute; lia).
  specialize (H Hlen). vm_compute in H. discriminate H.
Qed.

(** ** The port of the listen address *)

Lemma decimalDigit_val c :
  decimalDigit c = true ->
  Strconv.digitVal c = Some (code c - code "0") /\ 0 <= code c - code "0" <= 9.
Proof.
  unfold decimalDigit, Strconv.digitVal. intros H. rewrite H.
  apply andb_prop in H. destruct H as [H1 H2].
  apply Z.leb_le in H1. apply Z.leb_le in H2.
  change (code "0") with 48 in *. change (code "9") with 57 in *. split; [reflexivity | lia].
Qed.

Lemma decimalFrom_ge s :
  forall n, 0 <= n -> stringForall decimalDigit s = true -> n <= decimalFrom n s.
Proof.
  induction s as [|c s' IH]; intros n Hn Hs; simpl in *.
  - lia.
  - apply andb_prop in Hs. destruct Hs as [Hc Hs].
    destruct (decimalDigit_val c Hc) as [_ Hd].
    specialize (IH (n * 10 + (code c - code "0")) ltac:(lia) Hs). lia.
Qed.

(** The digit loop on decimal digits with a bound below 2^64 / 10:
    the value, or a range error as soon as the bound is passed. *)
Lemma parseDigits_decimal maxVal s :
  0 <= maxVal <= 2 ^ 32 ->
  forall n,
    0 <= n <= maxVal ->
    stringForall decimalDigit s = true ->
    Strconv.parseDigits 10 maxVal n s
    = if decimalFrom n s <=? maxVal then inl (decimalFrom n s) else inr ErrRange.
Proof.
  intros Hmax. induction s as [|c s' IH]; intros n Hn Hs; simpl in *.
  - destruct (n <=? maxVal) eqn:E; [reflexivity | apply Z.leb_gt in E; lia].
  - apply andb_prop in Hs. destruct Hs as [Hc Hs].
    destruct (decimalDigit_val c Hc) as [Hv Hd]. rewrite Hv.
    destruct (10 <=? code c - code "0") eqn:E1; [apply Z.leb_le in E1; lia|].
    unfold Strconv.maxUint64.
    destruct ((2 ^ 64 - 1) / 10 + 1 <=? n) eqn:E2.
    { apply Z.leb_le in E2.
      change ((2 ^ 64 - 1) / 10 + 1) with 1844674407370955162 in E2.
      change (2 ^ 32) with 4294967296 in Hmax. lia. }
    set (n1 := n * 10 + (code c - code "0")).
    assert (Hn1 : 0 <= n1) by (unfold n1; lia).
    pose proof (decimalFrom_ge s' n1 Hn1 Hs) as Hge.
    destruct (2 ^ 64 - 1 <? n1) eqn:E3; simpl.
    { apply Z.ltb_lt in E3.
      destruct (decimalFrom n1 s' <=? maxVal) eqn:E4; [|reflexivity].
      apply Z.leb_le in E4. change (2 ^ 32) with 4294967296 in Hmax.
      change (2 ^ 64 - 1) with 18446744073709551615 in E3. lia. }
    destruct (maxVal <? n1) eqn:E5.
    { apply Z.ltb_lt in E5.
      destruct (decimalFrom n1 s' <=? maxVal) eqn:E4; [|reflexivity].
      apply Z.leb_le in E4. lia. }
    apply Z.ltb_ge in E5. apply IH; [lia | exact Hs].
Qed.

(** What [ParseInt(port, 10, 16)] does on a text of decimal digits: the
    value when it is at most 32767, a range error above. *)
Lemma parse_port_decimal c s :
  stringForall decimalDigit (String c s) = true ->
  Strconv.ParseInt (String c s) 10 16
  = if decimalValue (String c s) <=? 32767
    then Ok (decimalValue (String c s))
    else Err (ENum "ParseInt" (String c s) ErrRange).
Proof.
  intros Hs. unfold Strconv.ParseInt.
  assert (Hc : decimalDigit c = true) by (simpl in Hs; apply andb_prop in Hs; tauto).
  assert (Hplus : Ascii.eqb c "+" = false).
  { destruct (Ascii.eqb c "+") eqn:E; [|reflexivity].
    apply Ascii.eqb_eq in E. subst c. discriminate Hc. }
  assert (Hminus : Ascii.eqb c "-" = false).
  { destruct (Ascii.eqb c "-") eqn:E; [|reflexivity].
    apply Ascii.eqb_eq in E. subst c. discriminate Hc. }
  rewrite Hplus, Hminus. cbn [orb andb negb].
  unfold Strconv.parseUint.
  change ((10 <? 2) || (36 <? 10)) with false.
  change ((16 <? 0) || (64 <? 16)) with false.
  change (16 =? 0) with false. cbv iota.
  change (2 ^ 16 - 1) with 65535. change (2 ^ (16 - 1)) with 32768.
  rewrite (parseDigits_decimal 65535 (String c s)); [|compute; split; discriminate| lia | exact Hs].
  fold (decimalValue (String c s)).
  pose proof (decimalFrom_ge (String c s) 0 ltac:(lia) Hs) as Hge.
  fold (decimalValue (String c s)) in Hge.
  destruct (decimalValue (String c s) <=? 65535) eqn:E1.
  - destruct (32768 <=? decimalValue (String c s)) eqn:E2.
    + apply Z.leb_le in E2.
      destruct (decimalValue (String c s) <=? 32767) eqn:E3;
        [apply Z.leb_le in E3; lia | reflexivity].
    + apply Z.leb_gt in E2.
      destruct (decimalValue (String c s) <=? 32767) eqn:E3;
        [reflexivity | apply Z.leb_gt in E3; lia].
  - apply Z.leb_gt in E1.
    destruct (decimalValue (String c s) <=? 32767) eqn:E3;
      [apply Z.leb_le in E3; lia | reflexivity].
Qed.

(** C5, the code at a port above 32767. [ParseInt(port, 10, 16)] reads a
    signed 16-bit integer: the port 40000, which fits 16 unsigned bits,
    is refused with a range error, so that the address is not resolved;
    32767 is the largest port accepted, 65535 is refused, and the signed
    text -1 is accepted. *)
Theorem port_above_32767_is_refused :
  Strconv.ParseInt "40000" 10 16 = Err (ENum "ParseInt" "40000" ErrRange)
  /\ resolveAddr (literalEnv "linux") "127.0.0.1:40000"
     = inl (WarnPort "127.0.0.1:40000" (ENum "ParseInt" "40000" ErrRange))
  /\ Strconv.ParseInt "32767" 10 16 = Ok 32767
  /\ Strconv.ParseInt "32768" 10 16 = Err (ENum "ParseInt" "32768" ErrRange)
  /\ Strconv.ParseInt "65535" 10 16 = Err (ENum "ParseInt" "65535" ErrRange)
  /\ Strconv.ParseInt "-1" 10 16 = Ok (-1).
Proof. repeat split; vm_compute; reflexivity. Qed.

(** ** The keys of the listen address *)

(** The three ways the resolution fails, each with its warning. *)
Lemma resolveAddr_failures :
  resolveAddr (literalEnv "linux") "localhost"
  = inl (WarnNoPortSeparator "localhost")
  /\ resolveAddr (literalEnv "linux") "nowhere.invalid:8080"
     = inl (WarnAddress "nowhere.invalid:8080" (ELookup "nowhere.invalid"))
  /\ resolveAddr (literalEnv "linux") "127.0.0.1:http"
     = inl (WarnPort "127.0.0.1:http" (ENum "ParseInt" "http" ErrSyntax)).
Proof. repeat split; vm_compute; reflexivity. Qed.

(** An address with no colon fails before the resolver is asked. *)
Lemma resolveAddr_no_colon env device0 :
  index 0 ":" device0 = None ->
  resolveAddr env device0 = inl (WarnNoPortSeparator device0).
Proof.
  intros H. unfold resolveAddr, GoStrings.Cut. rewrite H. reflexivity.
Qed.

(** The keys of a list of addresses, all of them with a 4-byte form. *)
Lemma addrKeys_v4 ip rest ph :
  length (Net.To4 ip) = Net.IPv4len ->
  addrKeys (ip :: rest) ph
  = Fmt.Sprintf_X_s (Binary.LittleEndian_Uint32 (Net.To4 ip)) ph :: addrKeys rest ph.
Proof.
  intros H. simpl. apply Nat.eqb_eq in H. rewrite H. reflexivity.
Qed.

(** An address with no 4-byte form gives no key. *)
Lemma addrKeys_not_v4 ip rest ph :
  length (Net.To4 ip) <> Net.IPv4len ->
  addrKeys (ip :: rest) ph = addrKeys rest ph.
Proof.
  intros H. simpl. apply Nat.eqb_neq in H. rewrite H. reflexivity.
Qed.

(** C1, the code at the listen address 127.0.0.1:8080. The key built by
    [Sprintf("%X:%s", ...)] has no zero padding: the address part has
    seven digits, [100007F], where the kernel table and the comment of
    [procNetUDP] (xxxxxxxx:xxxx) have eight, [0100007F].  The two keys
    are not equal even letter case apart, so the reading of a table that
    holds the row of the socket does not find it with the key of the
    code, and finds it with the eight-digit key. *)
Theorem loopback_key_lacks_padding :
  resolveAddr (literalEnv "linux") "127.0.0.1:8080" = inr ["100007F:1f90"]
  /\ resolveAddr (literalEnv "linux") "127.0.0.1:8080" <> inr ["0100007F:1F90"]
  /\ GoStrings.EqualFold "0100007F:1F90" "100007F:1f90" = false
  /\ GoStrings.EqualFold "0100007F:1F90" "0100007F:1f90" = true
  /\ procNetUDP (fileWith table) "/proc/net/udp" ["100007F:1f90"]
     = Err (ENotFound "/proc/net/udp" ["100007F:1f90"])
  /\ procNetUDP (fileWith table) "/proc/net/udp" ["0100007F:1F90"] = Ok (26, 5).
Proof.
  split; [vm_compute; reflexivity|].
  split; [vm_compute; intros H; discriminate H|].
  repeat split; vm_compute; reflexivity.
Qed.

(** ** Construction: when the poller is started *)

Lemma id_nonempty_eqb id : id <> "" -> String.eqb id "" = false.
Proof.
  intros H. destruct (String.eqb id "") eqn:E; [|reflexivity].
  apply String.eqb_eq in E. contradiction.
Qed.

(** The constructor when the gate [poll > 0 && runtime.GOOS == "linux"]
    is closed: the object is registered and nothing else happens. *)
Lemma newInputMetrics_gate_closed env id device0 buflen poll0 w :
  id <> "" ->
  poll0 <= 0 \/ GOOS env <> "linux" ->
  newInputMetrics env id device0 buflen poll0 w
  = (Some (freshMetrics id device0 buflen), registerInput id w).
Proof.
  intros Hid Hgate. unfold newInputMetrics. rewrite (id_nonempty_eqb id Hid).
  assert (Hg : (0 <? poll0) && String.eqb (GOOS env) "linux" = false).
  { destruct Hgate as [Hp|Hos].
    - apply Z.ltb_ge in Hp. rewrite Hp. reflexivity.
    - destruct (String.eqb (GOOS env) "linux") eqn:E.
      + apply String.eqb_eq in E. contradiction.
      + apply andb_false_r. }
  rewrite Hg. reflexivity.
Qed.

(** The constructor when the gate is open and the resolution fails: the
    warning is logged and the object is returned at once. *)
Lemma newInputMetrics_unresolved env id device0 buflen poll0 w x :
  id <> "" ->
  0 < poll0 ->
  GOOS env = "linux" ->
  resolveAddr env device0 = inl x ->
  newInputMetrics env id device0 buflen poll0 w
  = (Some (freshMetrics id device0 buflen), warn x (registerInput id w)).
Proof.
  intros Hid Hp Hos Hres. unfold newInputMetrics. rewrite (id_nonempty_eqb id Hid).
  apply Z.ltb_lt in Hp. rewrite Hp, Hos, Hres. reflexivity.
Qed.

(** The constructor when the gate is open and the resolution succeeds:
    a fresh channel is made and the poller is started on the keys. *)
Lemma newInputMetrics_resolved env id device0 buflen poll0 w addr :
  id <> "" ->
  0 < poll0 ->
  GOOS env = "linux" ->
  resolveAddr env device0 = inr addr ->
  newInputMetrics env id device0 buflen poll0 w
  = (Some (set_done (Some (chan (nextChan w))) (freshMetrics id device0 buflen)),
     mkWorld (<[id := metricNames]> (registry w)) (warnings w)
       (mkPoller (chan (nextChan w)) addr poll0 :: pollers w) (S (nextChan w))).
Proof.
  intros Hid Hp Hos Hres. unfold newInputMetrics. rewrite (id_nonempty_eqb id Hid).
  apply Z.ltb_lt in Hp. rewrite Hp, Hos, Hres. reflexivity.
Qed.

(** [close] on an object whose [done] is nil: no send, the world loses
    the registration and nothing else. *)
Lemma close_without_poller m w :
  done m = None ->
  close (Some m) w = Returned (unregisterInput (unregister m) w).
Proof. intros H. unfold close. rewrite H. reflexivity. Qed.

Lemma chan_eqb_refl c : chan_eqb c c = true.
Proof. destruct c as [n]. simpl. apply Nat.eqb_refl. Qed.

(** Whatever the constructor returns, a [done] channel that is not nil
    has a poller waiting on it in the world the constructor leaves. *)
Lemma done_has_poller env id device0 buflen poll0 w m w' c :
  newInputMetrics env id device0 buflen poll0 w = (Some m, w') ->
  done m = Some c ->
  existsb (listens c) (pollers w') = true.
Proof.
  unfold newInputMetrics. destruct (String.eqb id ""); [discriminate|].
  destruct ((0 <? poll0) && String.eqb (GOOS env) "linux").
  - destruct (resolveAddr env device0) as [x|addr]; simpl; intros H Hd;
      inversion H; subst; simpl in *; try discriminate.
    inversion Hd; subst. unfold listens at 1. simpl. rewrite Nat.eqb_refl. reflexivity.
  - intros H Hd. inversion H; subst. discriminate.
Qed.

(** So a [close] that follows the construction always returns. *)
Lemma close_after_construction_returns env id device0 buflen poll0 w :
  exists w',
    close (fst (newInputMetrics env id device0 buflen poll0 w))
          (snd (newInputMetrics env id device0 buflen poll0 w)) = Returned w'.
Proof.
  destruct (newInputMetrics env id device0 buflen poll0 w) as [[m|] w1] eqn:E; simpl.
  - destruct (done m) as [c|] eqn:Ed.
    + unfold send. rewrite (done_has_poller _ _ _ _ _ _ _ _ _ E Ed). eauto.
    + eauto.
  - eauto.
Qed.

(** C10. For an object made with a non-empty identifier whose poller
    was not started (interval not positive, system other than linux, or
    the early return of a failed resolution) the [done] channel is nil
    and no poller was added; [close] then makes no send: in any world it
    returns, and what it leaves is that world with the registration of
    the identifier removed and nothing else changed. *)
Theorem close_skips_send_without_poller :
  forall env id device0 buflen poll0 w,
    id <> "" ->
    poll0 <= 0 \/ GOOS env <> "linux"
    \/ (exists x, resolveAddr env device0 = inl x) ->
    exists m w',
      newInputMetrics env id device0 buflen poll0 w = (Some m, w')
      /\ done m = None
      /\ pollers w' = pollers w
      /\ pollerState m w' = Idle
      /\ (forall w2,
             close (Some m) w2 = Returned (unregisterInput id w2)
             /\ pollers (unregisterInput id w2) = pollers w2
             /\ registry (unregisterInput id w2) !! id = None).
Proof.
  intros env id device0 buflen poll0 w Hid Hcase.
  assert (Hclose : forall w2,
             close (Some (freshMetrics id device0 buflen)) w2
             = Returned (unregisterInput id w2)
             /\ pollers (unregisterInput id w2) = pollers w2
             /\ registry (unregisterInput id w2) !! id = None).
  { intros w2. split; [reflexivity|]. split; [reflexivity|].
    simpl. apply lookup_delete_eq. }
  destruct (Z_le_gt_dec poll0 0) as [Hp|Hp].
  { eexists _, _. split;
      [apply newInputMetrics_gate_closed; [exact Hid | left; exact Hp]|].
    repeat split; try reflexivity; apply Hclose. }
  destruct (string_dec (GOOS env) "linux") as [Hos|Hos].
  2:{ eexists _, _. split;
        [apply newInputMetrics_gate_closed; [exact Hid | right; exact Hos]|].
      repeat split; try reflexivity; apply Hclose. }
  destruct Hcase as [Hc|[Hc|[x Hx]]]; [lia | contradiction |].
  eexists _, _. split;
    [apply (newInputMetrics_unresolved _ _ _ _ _ _ x); [exact Hid | lia | exact Hos | exact Hx]|].
  repeat split; try reflexivity; apply Hclose.
Qed.

Lemma close_skips_send_witness :
  exists m w',
    newInputMetrics (literalEnv "darwin") "udp-1" "127.0.0.1:8080" 0 60000000000
      emptyWorld = (Some m, w')
    /\ done m = None
    /\ pollers w' = pollers emptyWorld
    /\ pollerState m w' = Idle
    /\ (forall w2,
           close (Some m) w2 = Returned (unregisterInput "udp-1" w2)
           /\ pollers (unregisterInput "udp-1" w2) = pollers w2
           /\ registry (unregisterInput "udp-1" w2) !! "udp-1" = None).
Proof.
  apply (close_skips_send_without_poller (literalEnv "darwin") "udp-1"
           "127.0.0.1:8080" 0 60000000000 emptyWorld).
  - discriminate.
  - right. left. simpl. discriminate.
Defined.

(** ** A poller with no key *)

Lemma scanLines_no_key path lines :
  scanLines path [] lines = Err (ENotFound path []).
Proof.
  induction lines as [|l rest IH]; simpl.
  - reflexivity.
  - rewrite andb_false_r. exact IH.
Qed.

(** With no key the reading never gives a value and never fails on the
    form of a line: it gives the error of the file system, or one of the
    two not-found errors. *)
Lemma procNetUDP_no_key fs path :
  procNetUDP fs path []
  = match fs path with
    | Err e => Err e
    | Ok b =>
        if (length (GoBytes.Split b "010") <? 2)%nat
        then Err (ENoLine path [])
        else Err (ENotFound path [])
    end.
Proof.
  unfold procNetUDP. destruct (fs path) as [b|e]; [|reflexivity].
  destruct (length (GoBytes.Split b "010") <? 2)%nat; [reflexivity|].
  apply scanLines_no_key.
Qed.

Lemma procNetUDP_no_key_fails fs path : isOk (procNetUDP fs path []) = false.
Proof.
  rewrite procNetUDP_no_key. destruct (fs path) as [b|e]; [|reflexivity].
  destruct (length (GoBytes.Split b "010") <? 2)%nat; reflexivity.
Qed.

(** A host with only an address that has no 4-byte form resolves, to no
    key, and the poller is started on the empty key set. *)
Lemma v6_only_polls_no_key :
  resolveAddr (literalEnv "linux") "ip6-localhost:8080" = inr []
  /\ pollers (snd (newInputMetrics (literalEnv "linux") "udp-1" "ip6-localhost:8080"
                     0 60000000000 emptyWorld))
     = [mkPoller (chan 0) [] 60000000000].
Proof. split; vm_compute; reflexivity. Qed.

(** C4, as the code has it. When the poller would be started
    (non-empty identifier, positive interval, linux) and the resolution
    of the address fails, the constructor logs the warning and returns
    at once: [done] stays nil, no poller is added to the world, the
    poller is idle, not running, and the two gauges are at zero.  A
    poller that does run with an empty key set gets an error from every
    reading of the table, the error of the file system when the file
    cannot be read and else one of the two not-found errors, and every
    tick leaves the object as it was. *)
Theorem failed_resolution_starts_no_poller :
  forall env id device0 buflen poll0 w x,
    id <> "" ->
    0 < poll0 ->
    GOOS env = "linux" ->
    resolveAddr env device0 = inl x ->
    (exists m,
        newInputMetrics env id device0 buflen poll0 w
        = (Some m, warn x (registerInput id w))
        /\ done m = None
        /\ pollers (warn x (registerInput id w)) = pollers w
        /\ pollerState m (warn x (registerInput id w)) = Idle
        /\ rxQueue m = 0 /\ drops m = 0)
    /\ (forall fs m,
           isOk (procNetUDP fs "/proc/net/udp" []) = false
           /\ fst (tick fs [] m) = m
           /\ procNetUDP fs "/proc/net/udp" []
              = match fs "/proc/net/udp" with
                | Err e => Err e
                | Ok b =>
                    if (length (GoBytes.Split b "010") <? 2)%nat
                    then Err (ENoLine "/proc/net/udp" [])
                    else Err (ENotFound "/proc/net/udp" [])
                end).
Proof.
  intros env id device0 buflen poll0 w x Hid Hp Hos Hres. split.
  - exists (freshMetrics id device0 buflen).
    split; [apply newInputMetrics_unresolved; assumption|].
    repeat split; reflexivity.
  - intros fs m. split; [apply procNetUDP_no_key_fails|].
    split; [|apply procNetUDP_no_key].
    pose proof (procNetUDP_no_key_fails fs "/proc/net/udp") as H.
    destruct (procNetUDP fs "/proc/net/udp" []) as [[rx dr]|e] eqn:E;
      [discriminate|].
    rewrite (tick_error _ _ _ _ E). reflexivity.
Qed.

Lemma failed_resolution_witness :
  (exists m,
      newInputMetrics (literalEnv "linux") "udp-1" "localhost" 0 60000000000 emptyWorld
      = (Some m, warn (WarnNoPortSeparator "localhost")
                   (registerInput "udp-1" emptyWorld))
      /\ done m = None
      /\ pollers (warn (WarnNoPortSeparator "localhost")
                    (registerInput "udp-1" emptyWorld)) = pollers emptyWorld
      /\ pollerState m (warn (WarnNoPortSeparator "localhost")
                          (registerInput "udp-1" emptyWorld)) = Idle
      /\ rxQueue m = 0 /\ drops m = 0)
  /\ (forall fs m,
         isOk (procNetUDP fs "/proc/net/udp" []) = false
         /\ fst (tick fs [] m) = m
         /\ procNetUDP fs "/proc/net/udp" []
            = match fs "/proc/net/udp" with
              | Err e => Err e
              | Ok b =>
                  if (length (GoBytes.Split b "010") <? 2)%nat
                  then Err (ENoLine "/proc/net/udp" [])
                  else Err (ENotFound "/proc/net/udp" [])
              end).
Proof.
  apply (failed_resolution_starts_no_poller (literalEnv "linux") "udp-1" "localhost"
           0 60000000000 emptyWorld (WarnNoPortSeparator "localhost")).
  - discriminate.
  - lia.
  - reflexivity.
  - reflexivity.
Defined.

(** C4 as stated fails: after a failed resolution (an address with no
    colon, on linux, with a positive interval) the poller is not
    running and no goroutine exists. *)
Lemma failed_resolution_not_running :
  exists m,
    fst (newInputMetrics (literalEnv "linux") "udp-1" "localhost" 0 60000000000
           emptyWorld) = Some m
    /\ pollerState m
         (snd (newInputMetrics (literalEnv "linux") "udp-1" "localhost" 0
                 60000000000 emptyWorld)) <> Running
    /\ pollers (snd (newInputMetrics (literalEnv "linux") "udp-1" "localhost" 0
                       60000000000 emptyWorld)) = [].
Proof.
  eexists. split; [vm_compute; reflexivity|].
  split; [vm_compute; discriminate | vm_compute; reflexivity].
Qed.

(** ** The shutdown handshake *)

Section HandshakeFacts.

Import Handshake.

Variable addr : list string.

(** The cases of a step, with the owner's place named [Ho] and the
    poller's place named [Hb] where the step asks for one. *)
Ltac step_cases H Ho Hb :=
  inversion H as
    [ ? ? ? ? ? Hlog | ? ? Ho _ | ? Hb | ? ? ? ? Hb _ | ? ? ? Hb _
    | ? ? ? Hb | ? ? Hb | ? Ho Hb | ? ? Hb _ | ? Ho ];
  subst; simpl.

Lemma started_invariant s : started s -> sendDoneImpliesObserved s.
Proof.
  intros (Hown & _ & _). unfold sendDoneImpliesObserved. rewrite Hown. exact I.
Qed.

Lemma step_invariant s s' :
  step addr s s' -> sendDoneImpliesObserved s -> sendDoneImpliesObserved s'.
Proof.
  unfold sendDoneImpliesObserved.
  intros Hstep; step_cases Hstep Ho Hb; intros Hinv;
    try exact Hinv; try exact I; try reflexivity;
    try (rewrite Hb in Hinv; simpl in Hinv;
         destruct (own s); try exact I; discriminate Hinv).
  - destruct (own s); try exact I; reflexivity.
  - rewrite Ho in Hinv. exact Hinv.
Qed.

Lemma steps_invariant s s' :
  steps addr s s' -> sendDoneImpliesObserved s -> sendDoneImpliesObserved s'.
Proof.
  induction 1 as [|s1 s2 s3 Hstep _ IH]; intros Hinv.
  - exact Hinv.
  - apply IH. exact (step_invariant _ _ Hstep Hinv).
Qed.

(** After the poller has taken the stop signal and [close] has
    returned, a step changes neither gauge, and both stay where they
    are. *)
Lemma step_after_close s s' :
  step addr s s' ->
  own s = Closed -> observed (bg s) = true ->
  own s' = Closed /\ observed (bg s') = true
  /\ rxQueue (obj s') = rxQueue (obj s) /\ drops (obj s') = drops (obj s).
Proof.
  intros Hstep Hown Hobs.
  step_cases Hstep Ho Hb;
    try (rewrite Hown in Ho; discriminate Ho);
    try (rewrite Hb in Hobs; discriminate Hobs).
  - destruct (log_fields (obj s) data timestamp amb)
      as (m1 & Hlog1 & _ & _ & _ & _ & Hrx & Hdr & _).
    rewrite Hlog1 in Hlog. inversion Hlog; subst. auto.
  - repeat split; auto.
Qed.

Lemma steps_after_close s s' :
  steps addr s s' ->
  own s = Closed -> observed (bg s) = true ->
  own s' = Closed /\ observed (bg s') = true
  /\ rxQueue (obj s') = rxQueue (obj s) /\ drops (obj s') = drops (obj s).
Proof.
  induction 1 as [|s1 s2 s3 Hstep _ IH]; intros Hown Hobs.
  - auto.
  - destruct (step_after_close _ _ Hstep Hown Hobs) as (Ho2 & Hb2 & Hrx & Hdr).
    destruct (IH Ho2 Hb2) as (Ho3 & Hb3 & Hrx3 & Hdr3).
    repeat split; congruence.
Qed.

(** The three steps of a tick do to the object what [tick] does. *)
Lemma tick_as_steps s fs :
  bg s = Selecting ->
  steps addr s
    (mkState (own s) Selecting (fst (tick fs addr (obj s)))
       (fold_right warn (world s) (snd (tick fs addr (obj s))))).
Proof.
  intros Hb. unfold tick.
  destruct (procNetUDP fs "/proc/net/udp" addr) as [[rx dr]|e] eqn:E; simpl.
  - eapply rtc_l; [apply step_tick; exact Hb|].
    eapply rtc_l; [eapply step_read_ok; [reflexivity | exact E]|].
    eapply rtc_l; [eapply step_set_rx; reflexivity|].
    eapply rtc_l; [eapply step_set_drops; reflexivity|].
    simpl. apply rtc_refl.
  - eapply rtc_l; [apply step_tick; exact Hb|].
    eapply rtc_l; [eapply step_read_fail; [reflexivity | exact E]|].
    simpl. apply rtc_refl.
Qed.

(** A [close] that waits in its send can always return: the poller
    ends the poll it is in, takes the signal, and the owner
    unregisters. *)
Lemma close_can_return s :
  own s = Sending -> observed (bg s) = false ->
  exists s', steps addr s s' /\ own s' = Closed.
Proof.
  intros Ho Hb.
  assert (Hsel : forall t, own t = Sending -> bg t = Selecting ->
                           exists t', steps addr t t' /\ own t' = Closed).
  { intros t Hto Htb. eexists. split.
    - eapply rtc_l; [apply step_handover; assumption|].
      eapply rtc_l; [apply step_unregister; reflexivity|]. apply rtc_refl.
    - reflexivity. }
  destruct (bg s) as [| |rx dr|dr| |] eqn:E; try discriminate Hb.
  - apply Hsel; assumption.
  - destruct (Hsel (mkState (own s) Selecting (obj s)
                      (warn (WarnProc (EReadFile "/proc/net/udp")) (world s))))
      as (s' & Hs' & Hc); [exact Ho | reflexivity |].
    exists s'. split; [|exact Hc].
    eapply rtc_l; [|exact Hs'].
    eapply (step_read_fail addr s noFile); [exact E | reflexivity].
  - destruct (Hsel (mkState (own s) Selecting
                      (set_drops (Monitoring.uint64 dr)
                         (set_rxQueue (Monitoring.uint64 rx) (obj s)))
                      (world s)))
      as (s' & Hs' & Hc); [exact Ho | reflexivity |].
    exists s'. split; [|exact Hc].
    eapply rtc_l; [eapply step_set_rx; exact E|].
    eapply rtc_l; [eapply step_set_drops; reflexivity|].
    exact Hs'.
  - destruct (Hsel (mkState (own s) Selecting
                      (set_drops (Monitoring.uint64 dr) (obj s)) (world s)))
      as (s' & Hs' & Hc); [exact Ho | reflexivity |].
    exists s'. split; [|exact Hc].
    eapply rtc_l; [eapply step_set_drops; exact E|].
    exact Hs'.
Qed.

(** The run in which the poller is waiting when [close] is called ends
    in the world that [close] computes. *)
Lemma close_agrees_with_run s c :
  own s = Working -> bg s = Selecting ->
  done (obj s) = Some c ->
  existsb (listens c) (pollers (world s)) = true ->
  exists s',
    steps addr s s'
    /\ own s' = Closed /\ bg s' = Exited /\ obj s' = obj s
    /\ close (Some (obj s)) (world s) = Returned (world s').
Proof.
  intros Ho Hb Hd Hp. eexists. split.
  - eapply rtc_l; [eapply step_close; [exact Ho | exact Hd]|].
    eapply rtc_l; [eapply step_handover; [reflexivity | exact Hb]|].
    eapply rtc_l; [eapply step_ticker_stop; [reflexivity | exact Hd]|].
    eapply rtc_l; [eapply step_unregister; reflexivity|].
    apply rtc_refl.
  - simpl. repeat split. unfold close, send. rewrite Hd, Hp. reflexivity.
Qed.

End HandshakeFacts.

(** The object when [poll] takes the stop is the object after the ticks
    before it; no tick that would follow writes anything. *)
Lemma poll_until_stop addr each before :
  forall after mm,
    snd (poll mm addr each (before ++ Stop :: after)) = true
    /\ fst (fst (poll mm addr each (before ++ Stop :: after)))
       = fst (fst (poll mm addr each before)).
Proof.
  induction before as [|s rest IH]; intros after mm.
  - split; reflexivity.
  - destruct s as [fs|]; [|split; reflexivity].
    simpl. destruct (tick fs addr mm) as [m1 ws1].
    destruct (IH after m1) as [IH1 IH2].
    destruct (poll m1 addr each (rest ++ Stop :: after)) as [[m2 ws2] ret].
    destruct (poll m1 addr each rest) as [[m3 ws3] ret3].
    simpl in *. auto.
Qed.

(** Once the poller on a channel has gone, no poller waits on it. *)
Lemma dropPoller_no_listener c w id :
  existsb (listens c) (pollers (unregisterInput id (dropPoller c w))) = false.
Proof.
  simpl. induction (pollers w) as [|p ps IH]; [reflexivity|].
  cbn [List.filter]. destruct (listens c p) eqn:E; simpl; [|rewrite E]; exact IH.
Qed.

(** C9. [close] on an object with a [done] channel returns only when a
    poller was waiting on that channel, and what it leaves is the world
    in which that poller has taken the signal and is gone and the input
    is unregistered; in a world with no poller on the channel the send
    never completes and [close] does not return.  The poller that takes
    the stop has returned, and the object is then what the ticks before
    the stop made it, a poll in flight included: no later tick writes a
    gauge.  In the interleaving of the two, a state in which [close] has
    returned is a state in which the poller has taken the signal, the
    gauges are the same in every state that can follow, and the run in
    which the poller is waiting ends in the world that [close] gives. *)
Theorem close_returns_after_stop_taken :
  forall m c w w',
    done m = Some c ->
    close (Some m) w = Returned w' ->
    existsb (listens c) (pollers w) = true
    /\ w' = unregisterInput (unregister m) (dropPoller c w)
    /\ existsb (listens c) (pollers w') = false
    /\ (forall w0,
          existsb (listens c) (pollers w0) = false ->
          close (Some m) w0 = Blocked w0)
    /\ (forall addr each before after mm,
          snd (poll mm addr each (before ++ Stop :: after)) = true
          /\ fst (fst (poll mm addr each (before ++ Stop :: after)))
             = fst (fst (poll mm addr each before)))
    /\ (forall addr s0 s,
          Handshake.started s0 ->
          Handshake.steps addr s0 s ->
          Handshake.own s = Handshake.Closed ->
          Handshake.observed (Handshake.bg s) = true
          /\ (forall s',
                 Handshake.steps addr s s' ->
                 Handshake.observed (Handshake.bg s') = true
                 /\ rxQueue (Handshake.obj s') = rxQueue (Handshake.obj s)
                 /\ drops (Handshake.obj s') = drops (Handshake.obj s)))
    /\ (forall addr s,
          Handshake.own s = Handshake.Working ->
          Handshake.bg s = Handshake.Selecting ->
          Handshake.obj s = m ->
          Handshake.world s = w ->
          exists s',
            Handshake.steps addr s s'
            /\ Handshake.own s' = Handshake.Closed
            /\ Handshake.bg s' = Handshake.Exited
            /\ Handshake.obj s' = m
            /\ Handshake.world s' = w').
Proof.
  intros m c w w' Hd Hclose.
  assert (Hlisten : existsb (listens c) (pollers w) = true).
  { unfold close, send in Hclose. rewrite Hd in Hclose.
    destruct (existsb (listens c) (pollers w)); [reflexivity | discriminate Hclose]. }
  assert (Hw' : w' = unregisterInput (unregister m) (dropPoller c w)).
  { unfold close, send in Hclose. rewrite Hd, Hlisten in Hclose.
    inversion Hclose. reflexivity. }
  split; [exact Hlisten|]. split; [exact Hw'|].
  split.
  { rewrite Hw'. apply dropPoller_no_listener. }
  split.
  { intros w0 H0. unfold close, send. rewrite Hd, H0. reflexivity. }
  split.
  { intros addr each before after mm. apply poll_until_stop. }
  split.
  { intros addr s0 s Hstart Hrun Hclosed.
    pose proof (steps_invariant addr s0 s Hrun (started_invariant s0 Hstart)) as Hinv.
    unfold Handshake.sendDoneImpliesObserved in Hinv. rewrite Hclosed in Hinv.
    split; [exact Hinv|].
    intros s' Hafter.
    destruct (steps_after_close addr s s' Hafter Hclosed Hinv) as (_ & Hb & Hrx & Hdr).
    auto. }
  intros addr s Ho Hb Hobj Hworld.
  destruct (close_agrees_with_run addr s c Ho Hb) as (s' & Hrun & Hc & He & Hm & Hcl).
  - rewrite Hobj. exact Hd.
  - rewrite Hworld. exact Hlisten.
  - exists s'. rewrite Hobj, Hworld, Hclose in Hcl. inversion Hcl.
    rewrite Hm, Hobj. auto.
Qed.

(** [close] is called while a poll is in flight; the poll ends and sets
    the gauges to 26 and 5, the signal is handed over, [close]
    unregisters and returns. *)
Lemma close_during_poll_run :
  Handshake.steps ["0100007F:1F90"] pollInFlight closedAfterPoll.
Proof.
  unfold Handshake.steps, pollInFlight, closedAfterPoll.
  eapply rtc_l; [eapply (Handshake.step_close _ _ (chan 0)); reflexivity|].
  eapply rtc_l;
    [eapply (Handshake.step_read_ok _ _ (fileWith table) 26 5);
       [reflexivity | vm_compute; reflexivity]|].
  eapply rtc_l; [eapply Handshake.step_set_rx; reflexivity|].
  eapply rtc_l; [eapply Handshake.step_set_drops; reflexivity|].
  eapply rtc_l; [eapply Handshake.step_handover; reflexivity|].
  eapply rtc_l; [eapply Handshake.step_unregister; reflexivity|].
  apply rtc_refl.
Defined.

Lemma close_returns_witness :
  existsb (listens (chan 0)) (pollers liveWorld) = true
  /\ existsb (listens (chan 0))
       (pollers (unregisterInput "udp-1" (dropPoller (chan 0) liveWorld))) = false
  /\ close (Some liveMetrics) emptyWorld = Blocked emptyWorld
  /\ (forall s',
         Handshake.steps ["0100007F:1F90"] closedAfterPoll s' ->
         Handshake.observed (Handshake.bg s') = true
         /\ rxQueue (Handshake.obj s') = 26
         /\ drops (Handshake.obj s') = 5).
Proof.
  destruct (close_returns_after_stop_taken liveMetrics (chan 0) liveWorld
              (unregisterInput "udp-1" (dropPoller (chan 0) liveWorld)))
    as (H1 & _ & H3 & H4 & _ & H6 & _).
  - reflexivity.
  - reflexivity.
  - split; [exact H1|]. split; [exact H3|].
    split; [apply H4; reflexivity|].
    destruct (H6 ["0100007F:1F90"] pollInFlight closedAfterPoll) as [_ Hafter].
    + repeat split; simpl; eauto.
    + exact close_during_poll_run.
    + reflexivity.
    + exact Hafter.
Defined.

(** ** Numbers in the texts of the table and of the keys *)

Lemma digitVal_range c d : Strconv.digitVal c = Some d -> 0 <= d.
Proof.
  unfold Strconv.digitVal.
  destruct ((code "0" <=? code c) && (code c <=? code "9")) eqn:E1.
  - intros H. inversion H; subst. apply andb_prop in E1. destruct E1 as [E1 _].
    apply Z.leb_le in E1. lia.
  - destruct ((code "a" <=? Strconv.lower (code c))
              && (Strconv.lower (code c) <=? code "z")) eqn:E2; [|discriminate].
    intros H. inversion H; subst. apply andb_prop in E2. destruct E2 as [E2 _].
    apply Z.leb_le in E2. lia.
Qed.

Lemma isDigitOf_val base c :
  isDigitOf base c = true ->
  exists d, Strconv.digitVal c = Some d /\ 0 <= d < base.
Proof.
  unfold isDigitOf. destruct (Strconv.digitVal c) as [d|] eqn:E; [|discriminate].
  intros H. apply Z.ltb_lt in H. exists d. split; [reflexivity|].
  split; [exact (digitVal_range c d E) | exact H].
Qed.

Lemma valueFrom_ge base s :
  0 <= base ->
  forall n, 0 <= n -> stringForall (isDigitOf base) s = true ->
            n <= valueFrom base n s.
Proof.
  intros Hb. induction s as [|c s' IH]; intros n Hn Hs; simpl in *.
  - lia.
  - apply andb_prop in Hs. destruct Hs as [Hc Hs].
    destruct (isDigitOf_val base c Hc) as (d & Hd & Hr). rewrite Hd.
    specialize (IH (n * base + d) ltac:(nia) Hs). nia.
Qed.

(** The digit loop of [ParseUint] on a text of digits of the base: the
    value of the text when it is within the bound, a range error
    otherwise. *)
Lemma parseDigits_value base maxVal s :
  2 <= base <= 36 ->
  0 <= maxVal <= Strconv.maxUint64 ->
  forall n,
    0 <= n <= maxVal ->
    stringForall (isDigitOf base) s = true ->
    Strconv.parseDigits base maxVal n s
    = if valueFrom base n s <=? maxVal then inl (valueFrom base n s) else inr ErrRange.
Proof.
  intros Hb Hmax. induction s as [|c s' IH]; intros n Hn Hs; simpl in *.
  - destruct (n <=? maxVal) eqn:E; [reflexivity | apply Z.leb_gt in E; lia].
  - apply andb_prop in Hs. destruct Hs as [Hc Hs].
    destruct (isDigitOf_val base c Hc) as (d & Hd & Hr). rewrite Hd.
    destruct (base <=? d) eqn:E1; [apply Z.leb_le in E1; lia|].
    set (n1 := n * base + d).
    assert (Hn1 : 0 <= n1) by (unfold n1; nia).
    pose proof (valueFrom_ge base s' ltac:(lia) n1 Hn1 Hs) as Hge.
    assert (Hover : maxVal < n1 ->
                    (if valueFrom base n1 s' <=? maxVal
                     then inl (valueFrom base n1 s') else inr ErrRange)
                    = (inr ErrRange : Z + NumErr)).
    { intros Hlt. destruct (valueFrom base n1 s' <=? maxVal) eqn:E4; [|reflexivity].
      apply Z.leb_le in E4. lia. }
    destruct (Strconv.maxUint64 / base + 1 <=? n) eqn:E2.
    { apply Z.leb_le in E2. symmetry. apply Hover.
      pose proof (Z.mul_succ_div_gt Strconv.maxUint64 base ltac:(lia)) as Hdiv.
      unfold n1. nia. }
    destruct (Strconv.maxUint64 <? n1) eqn:E3; simpl.
    { apply Z.ltb_lt in E3. symmetry. apply Hover. lia. }
    destruct (maxVal <? n1) eqn:E5.
    { apply Z.ltb_lt in E5. symmetry. apply Hover. exact E5. }
    apply Z.ltb_ge in E5. apply IH; [lia | exact Hs].
Qed.

(** A digit is neither of the two signs. *)
Lemma digit_is_no_sign base c :
  isDigitOf base c = true -> Ascii.eqb c "+" = false /\ Ascii.eqb c "-" = false.
Proof.
  intros H. split.
  - destruct (Ascii.eqb c "+") eqn:E; [|reflexivity].
    apply Ascii.eqb_eq in E. subst c. discriminate H.
  - destruct (Ascii.eqb c "-") eqn:E; [|reflexivity].
    apply Ascii.eqb_eq in E. subst c. discriminate H.
Qed.

(** [ParseInt(s, 16, 64)] on a text of hexadecimal digits: the value
    when it is below 2^63, a range error otherwise. *)
Lemma ParseInt_hex64 c s :
  hexText (String c s) = true ->
  Strconv.ParseInt (String c s) 16 64
  = if hexValue (String c s) <? 2 ^ 63
    then Ok (hexValue (String c s))
    else Err (ENum "ParseInt" (String c s) ErrRange).
Proof.
  intros Hs. unfold Strconv.ParseInt.
  assert (Hc : isDigitOf 16 c = true)
    by (unfold hexText in Hs; simpl in Hs; apply andb_prop in Hs; tauto).
  destruct (digit_is_no_sign 16 c Hc) as [Hplus Hminus].
  rewrite Hplus, Hminus. cbn [orb andb negb].
  unfold Strconv.parseUint.
  change ((16 <? 2) || (36 <? 16)) with false.
  change ((64 <? 0) || (64 <? 64)) with false.
  change (64 =? 0) with false. cbv iota.
  rewrite (parseDigits_value 16 (2 ^ 64 - 1) (String c s));
    [| lia | unfold Strconv.maxUint64; lia | lia | exact Hs].
  fold (hexValue (String c s)).
  pose proof (valueFrom_ge 16 (String c s) ltac:(lia) 0 ltac:(lia) Hs) as Hge.
  fold (hexValue (String c s)) in Hge.
  change (2 ^ (64 - 1)) with (2 ^ 63).
  destruct (hexValue (String c s) <=? 2 ^ 64 - 1) eqn:E1.
  - destruct (hexValue (String c s) <? 2 ^ 63) eqn:E2.
    + apply Z.ltb_lt in E2.
      destruct (2 ^ 63 <=? hexValue (String c s)) eqn:E3;
        [apply Z.leb_le in E3; lia | reflexivity].
    + apply Z.ltb_ge in E2.
      destruct (2 ^ 63 <=? hexValue (String c s)) eqn:E3;
        [reflexivity | apply Z.leb_gt in E3; lia].
  - apply Z.leb_gt in E1.
    destruct (hexValue (String c s) <? 2 ^ 63) eqn:E2;
      [apply Z.ltb_lt in E2; lia | reflexivity].
Qed.

(** ** Cutting and splitting texts *)

Lemma without_cons c a s :
  without c (String a s) = true -> a <> c /\ without c s = true.
Proof.
  unfold without. simpl. intros H. apply andb_prop in H. destruct H as [Ha Hs].
  split; [|exact Hs].
  intros ->. rewrite Ascii.eqb_refl in Ha. discriminate Ha.
Qed.

Lemma index_first c h p :
  without c h = true ->
  index 0 (String c "") (h ++ String c p) = Some (String.length h).
Proof.
  induction h as [|a h' IH]; intros H.
  - simpl. destruct (ascii_dec c c) as [_|Hne]; [|contradiction].
    destruct p; reflexivity.
  - apply without_cons in H. destruct H as [Hne Hh].
    simpl. destruct (ascii_dec c a) as [Heq|_]; [subst; contradiction|].
    rewrite (IH Hh). reflexivity.
Qed.

Lemma substring_prefix h r : substring 0 (String.length h) (h ++ r) = h.
Proof.
  induction h as [|a h' IH]; simpl.
  - destruct r; reflexivity.
  - rewrite IH. reflexivity.
Qed.

Lemma substring_all p : substring 0 (String.length p) p = p.
Proof. induction p as [|a p' IH]; simpl; [reflexivity | rewrite IH; reflexivity]. Qed.

Lemma substring_suffix h c p :
  substring (String.length h + 1)
            (String.length (h ++ String c p) - (String.length h + 1))
            (h ++ String c p) = p.
Proof.
  induction h as [|a h' IH].
  - simpl. rewrite Nat.sub_0_r. apply substring_all.
  - simpl. simpl in IH. exact IH.
Qed.

(** [Cut] at a one-byte separator: the text before its first
    occurrence, the text after it. *)
Lemma Cut_at_first c h p :
  without c h = true ->
  GoStrings.Cut (h ++ String c p) (String c "") = (h, p, true).
Proof.
  intros H. unfold GoStrings.Cut. rewrite (index_first c h p H).
  rewrite substring_prefix.
  change (String.length (String c "")) with 1%nat.
  rewrite substring_suffix. reflexivity.
Qed.

Lemma Cut_absent c s :
  without c s = true -> GoStrings.Cut s (String c "") = (s, "", false).
Proof.
  intros H. unfold GoStrings.Cut.
  assert (Hi : index 0 (String c "") s = None).
  { induction s as [|a s' IH].
    - reflexivity.
    - apply without_cons in H. destruct H as [Hne Hs].
      simpl. destruct (ascii_dec c a) as [Heq|_]; [subst; contradiction|].
      rewrite (IH Hs). reflexivity. }
  rewrite Hi. reflexivity.
Qed.

Lemma append_empty s : s ++ "" = s.
Proof.
  induction s as [|x s' IH]; [reflexivity|].
  change (String x s' ++ "") with (String x (s' ++ "")). rewrite IH. reflexivity.
Qed.

Lemma append_shift s a t : (s ++ String a "") ++ t = s ++ String a t.
Proof.
  induction s as [|x s' IH]; [reflexivity|].
  change ((String x s' ++ String a "") ++ t)
    with (String x ((s' ++ String a "") ++ t)).
  rewrite IH. reflexivity.
Qed.

Lemma splitFrom_first cur sep h body :
  without sep h = true ->
  GoBytes.splitFrom cur sep (h ++ String sep body)
  = (cur ++ h) :: GoBytes.splitFrom "" sep body.
Proof.
  revert cur. induction h as [|a h' IH]; intros cur H.
  - simpl. rewrite Ascii.eqb_refl, append_empty. reflexivity.
  - apply without_cons in H. destruct H as [Hne Hh].
    simpl. destruct (Ascii.eqb a sep) eqn:E; [apply Ascii.eqb_eq in E; contradiction|].
    rewrite (IH _ Hh), append_shift. reflexivity.
Qed.

Lemma splitFrom_nonempty cur sep s : GoBytes.splitFrom cur sep s <> [].
Proof.
  revert cur. induction s as [|a s' IH]; intros cur; simpl.
  - discriminate.
  - destruct (Ascii.eqb a sep); [discriminate | apply IH].
Qed.

(** ** The reading of the table as a whole *)

Lemma scanLines_find path addr lines :
  scanLines path addr lines
  = match find (candidate addr) lines with
    | Some l => extract (GoBytes.Fields l)
    | None => Err (ENotFound path addr)
    end.
Proof.
  induction lines as [|l rest IH]; simpl.
  - reflexivity.
  - unfold candidate at 1.
    destruct ((12 <? length (GoBytes.Fields l))%nat
              && contains (nth 1 (GoBytes.Fields l) "") addr); [reflexivity | exact IH].
Qed.

(** X1. On a readable file with at least two lines, [procNetUDP]
    returns what the first candidate line after the header gives, a
    pair of values or the error of its malformed field, whatever the
    lines after it hold; with no candidate line it returns the
    not-found error. *)
Theorem procNetUDP_first_candidate :
  forall (fs : FS) path addr b,
    fs path = Ok b ->
    (2 <= length (GoBytes.Split b "010"))%nat ->
    procNetUDP fs path addr
    = match find (candidate addr) (tl (GoBytes.Split b "010")) with
      | Some l => extract (GoBytes.Fields l)
      | None => Err (ENotFound path addr)
      end.
Proof.
  intros fs path addr b Hfs Hlen. unfold procNetUDP. rewrite Hfs.
  destruct (length (GoBytes.Split b "010") <? 2)%nat eqn:E.
  - apply Nat.ltb_lt in E. lia.
  - apply scanLines_find.
Qed.

(** Of two rows for the same socket the first one is read. *)
Lemma procNetUDP_first_candidate_witness :
  procNetUDP (fileWith table2) "/proc/net/udp" ["0100007F:1F90"] = Ok (26, 5).
Proof.
  rewrite (procNetUDP_first_candidate (fileWith table2) "/proc/net/udp"
             ["0100007F:1F90"] table2).
  - vm_compute. reflexivity.
  - reflexivity.
  - vm_compute. lia.
Defined.

(** X2. The first line of the file is never read as a row: whatever it
    holds, the result is that of the scan of the lines after its
    newline. *)
Theorem procNetUDP_skips_first_line :
  forall (fs : FS) path addr h body,
    fs path = Ok (h ++ String "010" body) ->
    without "010" h = true ->
    procNetUDP fs path addr = scanLines path addr (GoBytes.Split body "010").
Proof.
  intros fs path addr h body Hfs Hh. unfold procNetUDP. rewrite Hfs.
  unfold GoBytes.Split. rewrite (splitFrom_first "" "010" h body Hh).
  pose proof (splitFrom_nonempty "" "010" body) as Hne.
  destruct (GoBytes.splitFrom "" "010" body) as [|x xs] eqn:E; [contradiction|].
  reflexivity.
Qed.

(** A file whose only row is its first line: the row is not found. *)
Lemma procNetUDP_skips_first_line_witness :
  procNetUDP (fileWith (tableRow ++ String "010" "")) "/proc/net/udp"
    ["0100007F:1F90"]
  = Err (ENotFound "/proc/net/udp" ["0100007F:1F90"]).
Proof.
  rewrite (procNetUDP_skips_first_line (fileWith (tableRow ++ String "010" ""))
             "/proc/net/udp" ["0100007F:1F90"] tableRow "").
  - reflexivity.
  - reflexivity.
  - vm_compute. reflexivity.
Defined.

(** X3. A readable file with no newline in it, the empty file included,
    gives the no-line error, whatever its text and whatever the keys. *)
Theorem procNetUDP_one_line :
  forall (fs : FS) path addr b,
    fs path = Ok b ->
    without "010" b = true ->
    procNetUDP fs path addr = Err (ENoLine path addr).
Proof.
  intros fs path addr b Hfs Hb. unfold procNetUDP. rewrite Hfs.
  assert (Hs : forall cur, GoBytes.splitFrom cur "010" b = [(cur ++ b)%string]).
  { clear Hfs. induction b as [|a b' IH]; intros cur.
    - simpl. rewrite append_empty. reflexivity.
    - apply without_cons in Hb. destruct Hb as [Hne Hb'].
      simpl. destruct (Ascii.eqb a "010") eqn:E;
        [apply Ascii.eqb_eq in E; contradiction|].
      rewrite (IH Hb'), append_shift. reflexivity. }
  unfold GoBytes.Split. rewrite Hs. reflexivity.
Qed.

Lemma procNetUDP_one_line_witness :
  procNetUDP (fileWith tableRow) "/proc/net/udp" ["0100007F:1F90"]
  = Err (ENoLine "/proc/net/udp" ["0100007F:1F90"]).
Proof.
  apply (procNetUDP_one_line (fileWith tableRow) "/proc/net/udp"
           ["0100007F:1F90"] tableRow).
  - reflexivity.
  - vm_compute. reflexivity.
Defined.

(** ** The fields of a row *)

Lemma scanLines_candidate path addr l rest :
  candidate addr l = true ->
  scanLines path addr (l :: rest) = extract (GoBytes.Fields l).
Proof.
  intros H. unfold candidate in H. simpl. rewrite H. reflexivity.
Qed.

(** X4. On a candidate line whose fifth field is a text with no colon,
    then a colon, then hexadecimal digits, and whose thirteenth field is
    hexadecimal digits, both numbers below 2^63, the scan returns the
    number after the colon and the number of the thirteenth field. *)
Theorem row_gives_rx_and_drops :
  forall path addr l rest tx c1 rxh c2 drh,
    candidate addr l = true ->
    nth 4 (GoBytes.Fields l) "" = tx ++ String ":" (String c1 rxh) ->
    without ":" tx = true ->
    nth 12 (GoBytes.Fields l) "" = String c2 drh ->
    hexText (String c1 rxh) = true ->
    hexText (String c2 drh) = true ->
    hexValue (String c1 rxh) < 2 ^ 63 ->
    hexValue (String c2 drh) < 2 ^ 63 ->
    scanLines path addr (l :: rest)
    = Ok (hexValue (String c1 rxh), hexValue (String c2 drh)).
Proof.
  intros path addr l rest tx c1 rxh c2 drh Hc H4 Htx H12 Hrx Hdr Vrx Vdr.
  rewrite (scanLines_candidate path addr l rest Hc).
  unfold extract, GoBytes.Cut. rewrite H4, (Cut_at_first ":" tx _ Htx).
  cbn [negb]. cbv iota.
  rewrite (ParseInt_hex64 c1 rxh Hrx).
  apply Z.ltb_lt in Vrx. rewrite Vrx.
  rewrite H12, (ParseInt_hex64 c2 drh Hdr).
  apply Z.ltb_lt in Vdr. rewrite Vdr. reflexivity.
Qed.

Lemma row_gives_rx_and_drops_witness :
  scanLines "/proc/net/udp" ["0100007F:1F90"] [tableRow; tableRow2]
  = Ok (hexValue "0000001A", hexValue "5").
Proof.
  apply (row_gives_rx_and_drops "/proc/net/udp" ["0100007F:1F90"] tableRow
           [tableRow2] "00000000" "0" "000001A" "5" "").
  - vm_compute. reflexivity.
  - vm_compute. reflexivity.
  - reflexivity.
  - vm_compute. reflexivity.
  - reflexivity.
  - reflexivity.
  - vm_compute. reflexivity.
  - vm_compute. reflexivity.
Defined.

(** X5. A candidate line whose fifth field holds no colon is not passed
    over: the scan ends with the no-rx_queue error that carries the
    field, even when a later line is well formed. *)
Theorem row_without_colon_fails :
  forall path addr l rest,
    candidate addr l = true ->
    without ":" (nth 4 (GoBytes.Fields l) "") = true ->
    scanLines path addr (l :: rest)
    = Err (ENoRxQueue (nth 4 (GoBytes.Fields l) "")).
Proof.
  intros path addr l rest Hc H.
  rewrite (scanLines_candidate path addr l rest Hc).
  unfold extract, GoBytes.Cut. rewrite (Cut_absent ":" _ H). reflexivity.
Qed.

Lemma row_without_colon_witness :
  scanLines "/proc/net/udp" ["0100007F:1F90"]
    [ "500: 0100007F:1F90 00000000:0000 07 0000001A 00:00000000 00000000 0 0 21040 2 0 5";
      tableRow ]
  = Err (ENoRxQueue "0000001A").
Proof.
  apply (row_without_colon_fails "/proc/net/udp" ["0100007F:1F90"]
           "500: 0100007F:1F90 00000000:0000 07 0000001A 00:00000000 00000000 0 0 21040 2 0 5"
           [tableRow]).
  - vm_compute. reflexivity.
  - vm_compute. reflexivity.
Defined.

(** ** Keys and letter case *)

Lemma foldEq_spec a b :
  GoStrings.foldEq a b = true
  <-> code b = code a
      \/ (65 <= Z.min (code a) (code b) <= 90
          /\ Z.max (code a) (code b) = Z.min (code a) (code b) + 32).
Proof.
  unfold GoStrings.foldEq. change (code "A") with 65. change (code "Z") with 90.
  change (code "a") with 97.
  rewrite orb_true_iff, !andb_true_iff, Z.eqb_eq, !Z.leb_le, Z.eqb_eq.
  split; intros [H|H]; auto; right; lia.
Qed.

Lemma foldEq_refl a : GoStrings.foldEq a a = true.
Proof. apply foldEq_spec. left. reflexivity. Qed.

Lemma foldEq_sym a b : GoStrings.foldEq a b = GoStrings.foldEq b a.
Proof.
  destruct (GoStrings.foldEq a b) eqn:E1, (GoStrings.foldEq b a) eqn:E2;
    try reflexivity.
  - apply foldEq_spec in E1.
    assert (H : GoStrings.foldEq b a = true) by (apply foldEq_spec; lia).
    congruence.
  - apply foldEq_spec in E2.
    assert (H : GoStrings.foldEq a b = true) by (apply foldEq_spec; lia).
    congruence.
Qed.

Lemma foldEq_trans a b c :
  GoStrings.foldEq a b = true -> GoStrings.foldEq b c = true ->
  GoStrings.foldEq a c = true.
Proof. rewrite !foldEq_spec. lia. Qed.

Lemma EqualFold_refl s : GoStrings.EqualFold s s = true.
Proof.
  induction s as [|a s' IH]; simpl; [reflexivity|].
  rewrite foldEq_refl, IH. reflexivity.
Qed.

Lemma EqualFold_sym s : forall t, GoStrings.EqualFold s t = GoStrings.EqualFold t s.
Proof.
  induction s as [|a s' IH]; intros [|b t']; simpl; try reflexivity.
  rewrite foldEq_sym, IH. reflexivity.
Qed.

Lemma EqualFold_trans s :
  forall t u,
    GoStrings.EqualFold s t = true -> GoStrings.EqualFold t u = true ->
    GoStrings.EqualFold s u = true.
Proof.
  induction s as [|a s' IH]; intros [|b t'] [|c u']; simpl; try discriminate; auto.
  rewrite !andb_true_iff. intros [H1 H2] [H3 H4].
  split; [exact (foldEq_trans a b c H1 H3) | exact (IH t' u' H2 H4)].
Qed.

(** X6. On ASCII texts and ASCII keys, where [strings.EqualFold] is
    its ASCII loop, [contains] does not tell apart two texts that are
    equal letter case apart: it gives the same answer on both, whatever
    the keys; so a key is found in any letter case. *)
Theorem contains_ignores_case :
  forall b b' addr,
    asciiText b = true ->
    asciiText b' = true ->
    forallb asciiText addr = true ->
    GoStrings.EqualFold b b' = true ->
    contains b addr = contains b' addr.
Proof.
  intros b b' addr _ _ _ H. induction addr as [|a rest IH]; simpl.
  - reflexivity.
  - destruct (GoStrings.EqualFold b a) eqn:E1, (GoStrings.EqualFold b' a) eqn:E2;
      try reflexivity; try exact IH.
    + rewrite EqualFold_sym in H.
      rewrite (EqualFold_trans b' b a H E1) in E2. discriminate E2.
    + rewrite (EqualFold_trans b b' a H E2) in E1. discriminate E1.
Qed.

Lemma contains_ignores_case_witness :
  contains "0100007f:1f90" ["0100007F:1F90"]
  = contains "0100007F:1F90" ["0100007F:1F90"].
Proof.
  apply (contains_ignores_case "0100007f:1f90" "0100007F:1F90" ["0100007F:1F90"]).
  - reflexivity.
  - reflexivity.
  - reflexivity.
  - vm_compute. reflexivity.
Defined.

(** ** The samples of [log] *)

Lemma Update_count s v r : Metrics.count (Metrics.Update s v r) = Metrics.count s + 1.
Proof.
  unfold Metrics.Update.
  destruct (Z.of_nat (length (Metrics.values s)) <? Metrics.reservoirSize s);
    [reflexivity|].
  destruct (r <? Z.of_nat (length (Metrics.values s))); reflexivity.
Qed.

Lemma Update_size s v r :
  Metrics.reservoirSize (Metrics.Update s v r) = Metrics.reservoirSize s.
Proof.
  unfold Metrics.Update.
  destruct (Z.of_nat (length (Metrics.values s)) <? Metrics.reservoirSize s);
    [reflexivity|].
  destruct (r <? Z.of_nat (length (Metrics.values s))); reflexivity.
Qed.

(** A reservoir that is not over its size takes one more value until it
    is full, and keeps its length from then on. *)
Lemma Update_length s v r :
  Z.of_nat (length (Metrics.values s)) <= Metrics.reservoirSize s ->
  Z.of_nat (length (Metrics.values (Metrics.Update s v r)))
  = Z.min (Z.of_nat (length (Metrics.values s)) + 1) (Metrics.reservoirSize s).
Proof.
  intros H. unfold Metrics.Update.
  destruct (Z.of_nat (length (Metrics.values s)) <? Metrics.reservoirSize s) eqn:E.
  - apply Z.ltb_lt in E. simpl. rewrite length_app. simpl. lia.
  - apply Z.ltb_ge in E.
    destruct (r <? Z.of_nat (length (Metrics.values s))); simpl;
      [rewrite length_insert|]; lia.
Qed.

(** What one call does to the samples and to the last receipt time. *)
Lemma log_samples m data timestamp amb :
  exists m',
    log (Some m) data timestamp amb = Some m'
    /\ processingTime m'
       = Metrics.Update (processingTime m)
           (GoTime.Sub (now amb) timestamp) (drawProcessing amb)
    /\ arrivalPeriod m'
       = (if GoTime.IsZero (lastPacket m) then arrivalPeriod m
          else Metrics.Update (arrivalPeriod m)
                 (GoTime.Sub timestamp (lastPacket m)) (drawArrival amb))
    /\ lastPacket m' = timestamp.
Proof.
  destruct m as [u d lp dev pk by_ bl rx dr ap pt].
  unfold log; simpl.
  destruct (GoTime.IsZero lp); simpl; eexists; (split; [reflexivity|]); simpl;
    repeat split; reflexivity.
Qed.

Lemma log_keeps_reservoirs m data timestamp amb :
  reservoirsWithin m ->
  exists m',
    log (Some m) data timestamp amb = Some m'
    /\ reservoirsWithin m'
    /\ Z.of_nat (length (Metrics.values (processingTime m')))
       = Z.min (Z.of_nat (length (Metrics.values (processingTime m))) + 1) 1024.
Proof.
  intros (Hs1 & Hs2 & Hl1 & Hl2).
  destruct (log_samples m data timestamp amb) as (m' & Hlog & Hpt & Hap & _).
  exists m'. split; [exact Hlog|].
  assert (Hlen : Z.of_nat (length (Metrics.values (processingTime m')))
                 = Z.min (Z.of_nat (length (Metrics.values (processingTime m))) + 1) 1024).
  { rewrite Hpt, Update_length by lia. rewrite Hs1. reflexivity. }
  split; [|exact Hlen].
  unfold reservoirsWithin. rewrite Hlen.
  split; [rewrite Hpt, Update_size; exact Hs1|].
  split; [rewrite Hap; destruct (GoTime.IsZero (lastPacket m));
          [exact Hs2 | rewrite Update_size; exact Hs2]|].
  split; [lia|].
  rewrite Hap. destruct (GoTime.IsZero (lastPacket m)); [exact Hl2|].
  rewrite Update_length by lia. lia.
Qed.

Lemma logAll_keeps_reservoirs calls :
  forall m,
    reservoirsWithin m ->
    exists m',
      logAll (Some m) calls = Some m'
      /\ reservoirsWithin m'
      /\ Z.of_nat (length (Metrics.values (processingTime m')))
         = Z.min (Z.of_nat (length (Metrics.values (processingTime m)))
                  + Z.of_nat (length calls)) 1024.
Proof.
  induction calls as [|c rest IH]; intros m Hm.
  - exists m. split; [reflexivity|]. split; [exact Hm|].
    destruct Hm as (_ & _ & Hl & _). simpl. lia.
  - destruct (log_keeps_reservoirs m (cData c) (cTimestamp c) (cAmbient c) Hm)
      as (m1 & Hlog & Hm1 & Hlen1).
    destruct (IH m1 Hm1) as (m' & Hall & Hm' & Hlen').
    exists m'.
    change (logAll (Some m) (c :: rest))
      with (logAll (log (Some m) (cData c) (cTimestamp c) (cAmbient c)) rest).
    rewrite Hlog. split; [exact Hall|]. split; [exact Hm'|].
    rewrite Hlen', Hlen1. cbn [length]. rewrite Nat2Z.inj_succ. lia.
Qed.

Lemma fresh_reservoirs env id device0 buflen poll0 w :
  id <> "" ->
  exists m,
    fst (newInputMetrics env id device0 buflen poll0 w) = Some m
    /\ reservoirsWithin m
    /\ Metrics.values (processingTime m) = []
    /\ Metrics.count (processingTime m) = 0
    /\ Metrics.count (arrivalPeriod m) = 0
    /\ lastPacket m = 0.
Proof.
  intros Hid. unfold newInputMetrics. rewrite (id_nonempty_eqb id Hid).
  destruct ((0 <? poll0) && String.eqb (GOOS env) "linux").
  - destruct (resolveAddr env device0) as [x|addr]; simpl;
      eexists; (split; [reflexivity|]); unfold reservoirsWithin; simpl;
      repeat split; try reflexivity; lia.
  - eexists. split; [reflexivity|]. unfold reservoirsWithin. simpl.
    repeat split; try reflexivity; lia.
Qed.

(** X7. After any number [n] of [log] calls on an object made with a
    non-empty identifier, the processing-time reservoir holds the
    smaller of [n] and 1024 values, and the arrival-period reservoir
    holds at most 1024. *)
Theorem reservoirs_hold_at_most_1024 :
  forall env id device0 buflen poll0 w calls,
    id <> "" ->
    exists m,
      logAll (fst (newInputMetrics env id device0 buflen poll0 w)) calls = Some m
      /\ Z.of_nat (length (Metrics.values (processingTime m)))
         = Z.min (Z.of_nat (length calls)) 1024
      /\ Z.of_nat (length (Metrics.values (arrivalPeriod m))) <= 1024.
Proof.
  intros env id device0 buflen poll0 w calls Hid.
  destruct (fresh_reservoirs env id device0 buflen poll0 w Hid)
    as (m0 & Hm0 & Hres & Hv & _).
  destruct (logAll_keeps_reservoirs calls m0 Hres) as (m & Hall & Hm & Hlen).
  exists m. rewrite Hm0. split; [exact Hall|].
  rewrite Hlen, Hv. simpl. split; [reflexivity|].
  destruct Hm as (_ & _ & _ & H). exact H.
Qed.

Lemma reservoirs_witness :
  exists m,
    logAll (fst (newInputMetrics (literalEnv "linux") "udp-1" "127.0.0.1:8080"
                   0 60000000000 emptyWorld))
      [ mkCall "ab" 10 (mkAmbient 11 0 0); mkCall "cde" 20 (mkAmbient 21 0 0) ]
    = Some m
    /\ Z.of_nat (length (Metrics.values (processingTime m))) = 2
    /\ Z.of_nat (length (Metrics.values (arrivalPeriod m))) <= 1024.
Proof.
  apply (reservoirs_hold_at_most_1024 (literalEnv "linux") "udp-1" "127.0.0.1:8080"
           0 60000000000 emptyWorld
           [ mkCall "ab" 10 (mkAmbient 11 0 0); mkCall "cde" 20 (mkAmbient 21 0 0) ]).
  discriminate.
Defined.

Lemma last_cons_default (x : Z) l d d' : last (x :: l) d = last (x :: l) d'.
Proof.
  revert x. induction l as [|y l' IH]; intros x; [reflexivity|].
  change (last (x :: y :: l') d) with (last (y :: l') d).
  change (last (x :: y :: l') d') with (last (y :: l') d').
  apply IH.
Qed.

Lemma last_after_head (x : Z) l d : last l x = last (x :: l) d.
Proof.
  destruct l as [|y l']; [reflexivity|].
  change (last (x :: y :: l') d) with (last (y :: l') d).
  apply last_cons_default.
Qed.

Lemma logAll_counts_samples calls :
  forall m,
    lastPacket m <> 0 ->
    Forall (fun c => cTimestamp c <> 0) calls ->
    exists m',
      logAll (Some m) calls = Some m'
      /\ Metrics.count (processingTime m')
         = Metrics.count (processingTime m) + Z.of_nat (length calls)
      /\ Metrics.count (arrivalPeriod m')
         = Metrics.count (arrivalPeriod m) + Z.of_nat (length calls)
      /\ lastPacket m' = last (map cTimestamp calls) (lastPacket m).
Proof.
  induction calls as [|c rest IH]; intros m Hlp Hts.
  - exists m. simpl. rewrite !Z.add_0_r. auto.
  - inversion Hts as [|? ? Hc Hrest]; subst.
    destruct (log_samples m (cData c) (cTimestamp c) (cAmbient c))
      as (m1 & Hlog & Hpt & Hap & Hl1).
    assert (Hz : GoTime.IsZero (lastPacket m) = false)
      by (unfold GoTime.IsZero; apply Z.eqb_neq; exact Hlp).
    rewrite Hz in Hap.
    destruct (IH m1) as (m' & Hall & Hc1 & Hc2 & Hl'); [congruence | exact Hrest |].
    exists m'.
    change (logAll (Some m) (c :: rest))
      with (logAll (log (Some m) (cData c) (cTimestamp c) (cAmbient c)) rest).
    rewrite Hlog. split; [exact Hall|].
    rewrite Hc1, Hc2, Hpt, Hap, !Update_count, Hl', Hl1.
    cbn [length]. rewrite Nat2Z.inj_succ.
    split; [lia|]. split; [lia|].
    cbn [map]. apply last_after_head.
Qed.

(** X8. After [n] calls of [log] on an object made with a non-empty
    identifier, none with the zero time as receipt time, the
    processing-time sample has been updated [n] times and the
    arrival-period sample [n - 1] times (not at all for no call): the
    first packet gives no arrival period; and the last receipt time
    kept is that of the last call. *)
Theorem arrival_period_counts_gaps :
  forall env id device0 buflen poll0 w calls,
    id <> "" ->
    Forall (fun c => cTimestamp c <> 0) calls ->
    exists m,
      logAll (fst (newInputMetrics env id device0 buflen poll0 w)) calls = Some m
      /\ Metrics.count (processingTime m) = Z.of_nat (length calls)
      /\ Metrics.count (arrivalPeriod m) = Z.max 0 (Z.of_nat (length calls) - 1)
      /\ lastPacket m = last (map cTimestamp calls) 0.
Proof.
  intros env id device0 buflen poll0 w calls Hid Hts.
  destruct (fresh_reservoirs env id device0 buflen poll0 w Hid)
    as (m0 & Hm0 & _ & _ & Hc1 & Hc2 & Hlp).
  rewrite Hm0. destruct calls as [|c rest].
  - exists m0. simpl. rewrite Hc1, Hc2, Hlp. auto.
  - inversion Hts as [|? ? Hc Hrest]; subst.
    destruct (log_samples m0 (cData c) (cTimestamp c) (cAmbient c))
      as (m1 & Hlog & Hpt & Hap & Hl1).
    assert (Hz : GoTime.IsZero (lastPacket m0) = true)
      by (rewrite Hlp; reflexivity).
    rewrite Hz in Hap.
    destruct (logAll_counts_samples rest m1) as (m & Hall & Hn1 & Hn2 & Hl);
      [congruence | exact Hrest |].
    exists m.
    change (logAll (Some m0) (c :: rest))
      with (logAll (log (Some m0) (cData c) (cTimestamp c) (cAmbient c)) rest).
    rewrite Hlog. split; [exact Hall|].
    rewrite Hn1, Hn2, Hpt, Hap, Update_count, Hc1, Hc2, Hl, Hl1.
    cbn [length]. rewrite Nat2Z.inj_succ.
    split; [lia|]. split; [lia|].
    cbn [map]. apply last_after_head.
Qed.

Lemma arrival_period_witness :
  exists m,
    logAll (fst (newInputMetrics (literalEnv "linux") "udp-1" "127.0.0.1:8080"
                   0 60000000000 emptyWorld))
      [ mkCall "ab" 10 (mkAmbient 11 0 0); mkCall "cde" 20 (mkAmbient 21 0 0);
        mkCall "f" 30 (mkAmbient 31 0 0) ]
    = Some m
    /\ Metrics.count (processingTime m) = 3
    /\ Metrics.count (arrivalPeriod m) = 2
    /\ lastPacket m = 30.
Proof.
  apply (arrival_period_counts_gaps (literalEnv "linux") "udp-1" "127.0.0.1:8080"
           0 60000000000 emptyWorld
           [ mkCall "ab" 10 (mkAmbient 11 0 0); mkCall "cde" 20 (mkAmbient 21 0 0);
             mkCall "f" 30 (mkAmbient 31 0 0) ]).
  - discriminate.
  - repeat constructor; discriminate.
Defined.

(** ** The poller and the receive path side by side *)

(** X9. A tick of the poller and a call of [log] write different fields
    of the object: done in either order they leave the same object, and
    the tick logs the same warning. *)
Theorem tick_and_log_commute :
  forall fs addr m data timestamp amb,
    log (Some (fst (tick fs addr m))) data timestamp amb
    = option_map (fun m' => fst (tick fs addr m')) (log (Some m) data timestamp amb)
    /\ (forall m', log (Some m) data timestamp amb = Some m' ->
                   snd (tick fs addr m') = snd (tick fs addr m)).
Proof.
  intros fs addr m data timestamp amb.
  destruct m as [u d lp dev pk by_ bl rx dr ap pt].
  unfold tick.
  destruct (procNetUDP fs "/proc/net/udp" addr) as [[rx' dr']|e]; split;
    try (intros m' _; reflexivity);
    unfold log; simpl; destruct (GoTime.IsZero lp); reflexivity.
Qed.

Lemma tick_keeps_rest fs addr m :
  packets (fst (tick fs addr m)) = packets m
  /\ bytes (fst (tick fs addr m)) = bytes m
  /\ lastPacket (fst (tick fs addr m)) = lastPacket m
  /\ processingTime (fst (tick fs addr m)) = processingTime m
  /\ arrivalPeriod (fst (tick fs addr m)) = arrivalPeriod m
  /\ done (fst (tick fs addr m)) = done m
  /\ unregister (fst (tick fs addr m)) = unregister m
  /\ device (fst (tick fs addr m)) = device m
  /\ bufferLen (fst (tick fs addr m)) = bufferLen m.
Proof.
  unfold tick. destruct (procNetUDP fs "/proc/net/udp" addr) as [[rx dr]|e];
    simpl; repeat split; reflexivity.
Qed.

(** X10. Whatever the selections, [poll] writes nothing but the two
    gauges: the counters, the samples, the last receipt time, the
    device, the buffer length, [done] and [unregister] are at the end
    what they were at the start. *)
Theorem poll_writes_only_gauges :
  forall addr each sel m,
    packets (fst (fst (poll m addr each sel))) = packets m
    /\ bytes (fst (fst (poll m addr each sel))) = bytes m
    /\ lastPacket (fst (fst (poll m addr each sel))) = lastPacket m
    /\ processingTime (fst (fst (poll m addr each sel))) = processingTime m
    /\ arrivalPeriod (fst (fst (poll m addr each sel))) = arrivalPeriod m
    /\ done (fst (fst (poll m addr each sel))) = done m
    /\ unregister (fst (fst (poll m addr each sel))) = unregister m
    /\ device (fst (fst (poll m addr each sel))) = device m
    /\ bufferLen (fst (fst (poll m addr each sel))) = bufferLen m.
Proof.
  intros addr each sel. induction sel as [|s rest IH]; intros m.
  - simpl. repeat split; reflexivity.
  - destruct s as [fs|].
    + simpl. specialize (IH (fst (tick fs addr m))).
      destruct (tick fs addr m) as [m1 ws1] eqn:Et.
      pose proof (tick_keeps_rest fs addr m) as Hk. rewrite Et in Hk.
      simpl in *.
      destruct (poll m1 addr each rest) as [[m2 ws2] ret]. simpl in *.
      destruct IH as (I1 & I2 & I3 & I4 & I5 & I6 & I7 & I8 & I9).
      destruct Hk as (K1 & K2 & K3 & K4 & K5 & K6 & K7 & K8 & K9).
      repeat split; congruence.
    + simpl. repeat split; reflexivity.
Qed.

(** ** The loop of the poller *)

(** X11. [poll] ends at the first stop: the selections after it play no
    part, and the function has returned. *)
Theorem poll_ends_at_stop :
  forall addr each sel1 sel2 m,
    poll m addr each (sel1 ++ Stop :: sel2)%list
    = poll m addr each (sel1 ++ [Stop])%list
    /\ snd (poll m addr each (sel1 ++ Stop :: sel2)%list) = true.
Proof.
  intros addr each sel1 sel2. induction sel1 as [|s rest IH]; intros m.
  - split; reflexivity.
  - destruct s as [fs|].
    + simpl. destruct (tick fs addr m) as [m1 ws1].
      destruct (IH m1) as [IH1 IH2]. rewrite IH1 in IH2 |- *.
      destruct (poll m1 addr each (rest ++ [Stop])) as [[m2 ws2] ret].
      simpl in *. auto.
    + split; reflexivity.
Qed.

Lemma poll_app addr each sel1 :
  forall sel2 m,
    Forall isTick sel1 ->
    fst (fst (poll m addr each (sel1 ++ sel2)))
    = fst (fst (poll (fst (fst (poll m addr each sel1))) addr each sel2)).
Proof.
  induction sel1 as [|s rest IH]; intros sel2 m H.
  - reflexivity.
  - inversion H as [|? ? Hs Hrest]; subst.
    destruct s as [fs|]; [|contradiction].
    simpl. destruct (tick fs addr m) as [m1 ws1].
    specialize (IH sel2 m1 Hrest).
    destruct (poll m1 addr each (rest ++ sel2)) as [[m2 ws2] ret].
    destruct (poll m1 addr each rest) as [[m3 ws3] ret3].
    simpl in *. exact IH.
Qed.

Lemma fails_keeps addr each sel :
  forall m, Forall (fails addr) sel -> fst (fst (poll m addr each sel)) = m.
Proof.
  induction sel as [|s rest IH]; intros m H.
  - reflexivity.
  - inversion H as [|? ? Hs Hrest]; subst.
    destruct s as [fs|]; [|reflexivity].
    simpl in Hs. simpl.
    destruct (procNetUDP fs "/proc/net/udp" addr) as [[rx dr]|e] eqn:E;
      [discriminate|].
    rewrite (tick_error _ _ _ _ E).
    specialize (IH m Hrest).
    destruct (poll m addr each rest) as [[m2 ws2] ret]. simpl in *. exact IH.
Qed.

(** X12. The gauges hold the values of the most recent reading that
    succeeded: after any ticks, a tick that reads [(rx, dr)], and then
    only ticks that fail (or the stop), the two gauges are [rx] and [dr]
    as unsigned 64-bit integers. *)
Theorem last_successful_reading_wins :
  forall addr each before fs after m rx dr,
    Forall isTick before ->
    procNetUDP fs "/proc/net/udp" addr = Ok (rx, dr) ->
    Forall (fails addr) after ->
    rxQueue (fst (fst (poll m addr each (before ++ Tick fs :: after))))
    = Monitoring.uint64 rx
    /\ drops (fst (fst (poll m addr each (before ++ Tick fs :: after))))
       = Monitoring.uint64 dr.
Proof.
  intros addr each before fs after m rx dr Hb Hok Ha.
  rewrite (poll_app addr each before (Tick fs :: after) m Hb).
  set (m1 := fst (fst (poll m addr each before))).
  change (Tick fs :: after) with (([Tick fs] ++ after)%list).
  rewrite (poll_app addr each [Tick fs] after m1) by (repeat constructor).
  rewrite (fails_keeps addr each after _ Ha).
  simpl. rewrite (tick_ok _ _ _ _ _ Hok). simpl. auto.
Qed.

Lemma last_successful_reading_witness :
  rxQueue (fst (fst (poll liveMetrics ["0100007F:1F90"] 60000000000
                       [Tick noFile; Tick (fileWith table); Tick noFile])))
  = Monitoring.uint64 26
  /\ drops (fst (fst (poll liveMetrics ["0100007F:1F90"] 60000000000
                        [Tick noFile; Tick (fileWith table); Tick noFile])))
     = Monitoring.uint64 5.
Proof.
  apply (last_successful_reading_wins ["0100007F:1F90"] 60000000000
           [Tick noFile] (fileWith table) [Tick noFile] liveMetrics 26 5).
  - repeat constructor.
  - vm_compute. reflexivity.
  - repeat constructor.
Defined.

(** ** Construction and shutdown together *)

Lemma listens_fresh_none w :
  freshChans w ->
  filter (fun p => negb (listens (chan (nextChan w)) p)) (pollers w) = pollers w.
Proof.
  unfold freshChans. generalize (nextChan w) as n. intros n.
  induction (pollers w) as [|p ps IH]; intros H.
  - reflexivity.
  - inversion H as [|? ? Hp Hps]; subst.
    destruct p as [[i] a e]. simpl in Hp.
    cbn [List.filter]. unfold listens at 1. simpl.
    destruct (Nat.eqb i n) eqn:E; [apply Nat.eqb_eq in E; lia|].
    simpl. rewrite (IH Hps). reflexivity.
Qed.

(** X13. Construction followed by [close] gives the registry and the
    pollers back: when the identifier was not registered before and the
    channels of the live pollers are older than the next fresh one, the
    [close] that follows [newInputMetrics] returns, and the world it
    leaves has the registry and the pollers of the world before the
    construction. *)
Theorem construct_then_close_restores :
  forall env id device0 buflen poll0 w,
    registry w !! id = None ->
    freshChans w ->
    exists w',
      close (fst (newInputMetrics env id device0 buflen poll0 w))
            (snd (newInputMetrics env id device0 buflen poll0 w)) = Returned w'
      /\ registry w' = registry w
      /\ pollers w' = pollers w.
Proof.
  intros env id device0 buflen poll0 w Hreg Hfresh.
  unfold newInputMetrics. destruct (String.eqb id "") eqn:Eid.
  - exists w. simpl. auto.
  - destruct ((0 <? poll0) && String.eqb (GOOS env) "linux").
    + destruct (resolveAddr env device0) as [x|addr]; simpl.
      * eexists. split; [reflexivity|]. simpl.
        split; [apply delete_insert_id; exact Hreg | reflexivity].
      * unfold send. simpl. unfold listens at 1. simpl.
        rewrite Nat.eqb_refl. simpl.
        eexists. split; [reflexivity|]. simpl.
        split; [apply delete_insert_id; exact Hreg|].
        unfold listens at 1. simpl. rewrite Nat.eqb_refl. simpl.
        apply listens_fresh_none. exact Hfresh.
    + eexists. split; [reflexivity|]. simpl.
      split; [apply delete_insert_id; exact Hreg | reflexivity].
Qed.

Lemma construct_then_close_witness :
  exists w',
    close (fst (newInputMetrics (literalEnv "linux") "udp-1" "127.0.0.1:8080" 0
                  60000000000 emptyWorld))
          (snd (newInputMetrics (literalEnv "linux") "udp-1" "127.0.0.1:8080" 0
                  60000000000 emptyWorld)) = Returned w'
    /\ registry w' = registry emptyWorld
    /\ pollers w' = pollers emptyWorld.
Proof.
  apply (construct_then_close_restores (literalEnv "linux") "udp-1"
           "127.0.0.1:8080" 0 60000000000 emptyWorld).
  - reflexivity.
  - constructor.
Defined.

Lemma no_listener_after_drop c ps :
  existsb (listens c) (List.filter (fun p => negb (listens c p)) ps) = false.
Proof.
  induction ps as [|p ps' IH]; [reflexivity|].
  cbn [List.filter]. destruct (listens c p) eqn:E; simpl.
  - exact IH.
  - rewrite E. exact IH.
Qed.

(** X14. A second [close] on an object whose poller was started never
    returns: after a [close] that has returned, the poller is gone, and
    the send of the second [close] on the unbuffered channel has no
    receiver. *)
Theorem second_close_blocks :
  forall m c w w1,
    done m = Some c ->
    close (Some m) w = Returned w1 ->
    close (Some m) w1 = Blocked w1.
Proof.
  intros m c w w1 Hd H. unfold close in *. rewrite Hd in *.
  unfold send in *.
  destruct (existsb (listens c) (pollers w)); [|discriminate H].
  inversion H; subst. simpl.
  rewrite no_listener_after_drop. reflexivity.
Qed.

Lemma second_close_witness :
  close (Some liveMetrics)
        (unregisterInput "udp-1" (dropPoller (chan 0) liveWorld))
  = Blocked (unregisterInput "udp-1" (dropPoller (chan 0) liveWorld)).
Proof.
  apply (second_close_blocks liveMetrics (chan 0) liveWorld
           (unregisterInput "udp-1" (dropPoller (chan 0) liveWorld))).
  - reflexivity.
  - reflexivity.
Defined.

(** X15. For a non-empty identifier the constructor starts the poller
    exactly when the interval is positive, the system is linux and the
    address resolves: then, and only then, [done] is a channel, which is
    the next fresh one, and the one poller added to the world waits on
    it with the resolved keys and the given interval. *)
Theorem poller_started_iff :
  forall env id device0 buflen poll0 w,
    id <> "" ->
    exists m w',
      newInputMetrics env id device0 buflen poll0 w = (Some m, w')
      /\ (is_Some (done m)
          <-> 0 < poll0 /\ GOOS env = "linux"
              /\ exists addr, resolveAddr env device0 = inr addr)
      /\ (forall addr,
             0 < poll0 -> GOOS env = "linux" ->
             resolveAddr env device0 = inr addr ->
             done m = Some (chan (nextChan w))
             /\ pollers w' = mkPoller (chan (nextChan w)) addr poll0 :: pollers w
             /\ nextChan w' = S (nextChan w)).
Proof.
  intros env id device0 buflen poll0 w Hid.
  destruct (Z_le_gt_dec poll0 0) as [Hp|Hp].
  { eexists _, _. split;
      [apply newInputMetrics_gate_closed; [exact Hid | left; exact Hp]|].
    split.
    - split; [intros [c Hc]; discriminate Hc | intros (H & _); lia].
    - intros addr H. lia. }
  destruct (string_dec (GOOS env) "linux") as [Hos|Hos].
  2:{ eexists _, _. split;
        [apply newInputMetrics_gate_closed; [exact Hid | right; exact Hos]|].
      split.
      - split; [intros [c Hc]; discriminate Hc | intros (_ & H & _); contradiction].
      - intros addr _ H. contradiction. }
  destruct (resolveAddr env device0) as [x|addr] eqn:E.
  - eexists _, _. split;
      [apply (newInputMetrics_unresolved _ _ _ _ _ _ x); [exact Hid | lia | exact Hos | exact E]|].
    split.
    + split; [intros [c Hc]; discriminate Hc | intros (_ & _ & a & Ha); discriminate Ha].
    + intros a _ _ Ha. discriminate Ha.
  - eexists _, _. split;
      [apply (newInputMetrics_resolved _ _ _ _ _ _ addr); [exact Hid | lia | exact Hos | exact E]|].
    split.
    + split; [intros _; split; [lia|]; split; [exact Hos|]; eauto | intros _; simpl; eauto].
    + intros a _ _ Ha. inversion Ha; subst. simpl. auto.
Qed.

Lemma poller_started_witness :
  exists m w',
    newInputMetrics (literalEnv "linux") "udp-1" "127.0.0.1:8080" 0 60000000000
      emptyWorld = (Some m, w')
    /\ (is_Some (done m)
        <-> 0 < 60000000000 /\ GOOS (literalEnv "linux") = "linux"
            /\ exists addr,
                 resolveAddr (literalEnv "linux") "127.0.0.1:8080" = inr addr)
    /\ (forall addr,
           0 < 60000000000 -> GOOS (literalEnv "linux") = "linux" ->
           resolveAddr (literalEnv "linux") "127.0.0.1:8080" = inr addr ->
           done m = Some (chan (nextChan emptyWorld))
           /\ pollers w'
              = mkPoller (chan (nextChan emptyWorld)) addr 60000000000
                  :: pollers emptyWorld
           /\ nextChan w' = S (nextChan emptyWorld)).
Proof.
  apply (poller_started_iff (literalEnv "linux") "udp-1" "127.0.0.1:8080" 0
           60000000000 emptyWorld).
  discriminate.
Defined.

(** ** What the handshake protects *)

Section HandshakeMore.

Import Handshake.

Variable addr : list string.

Ltac step_cases H Ho Hb :=
  inversion H as
    [ ? ? ? ? ? Hlog | ? ? Ho _ | ? Hb | ? ? ? ? Hb _ | ? ? ? Hb _
    | ? ? ? Hb | ? ? Hb | ? Ho Hb | ? ? Hb _ | ? Ho ];
  subst; simpl.

Lemma log_keeps_identity m data timestamp amb m' :
  log (Some m) data timestamp amb = Some m' ->
  done m' = done m /\ unregister m' = unregister m.
Proof.
  intros H.
  destruct (log_fields m data timestamp amb)
    as (m1 & Hlog & _ & _ & _ & _ & _ & _ & Hd & Hu).
  rewrite Hlog in H. inversion H; subst. auto.
Qed.

Lemma step_registered id names s s' :
  step addr s s' ->
  registeredUntilClosed id names s -> registeredUntilClosed id names s'.
Proof.
  unfold registeredUntilClosed.
  intros Hstep; step_cases Hstep Ho Hb; intros [Hu Hr];
    try (split; [exact Hu | exact Hr]).
  - destruct (log_keeps_identity _ _ _ _ _ Hlog) as [_ Hu'].
    split; [congruence | exact Hr].
  - split; [exact Hu|]. intros _. apply Hr. rewrite Ho. discriminate.
  - split; [exact Hu|]. intros _. apply Hr. rewrite Ho. discriminate.
  - split; [exact Hu|]. intros H. contradiction.
Qed.

Lemma steps_registered id names s s' :
  steps addr s s' ->
  registeredUntilClosed id names s -> registeredUntilClosed id names s'.
Proof.
  induction 1 as [|s1 s2 s3 Hstep _ IH]; intros H; [exact H|].
  apply IH. exact (step_registered id names _ _ Hstep H).
Qed.

Lemma step_inStep s s' : step addr s s' -> inStep s -> inStep s'.
Proof.
  unfold inStep.
  intros Hstep; step_cases Hstep Ho Hb; intros [Hd Hp].
  - destruct (log_keeps_identity _ _ _ _ _ Hlog) as [Hd' _].
    split; [congruence | exact Hp].
  - rewrite Ho in Hp. auto.
  - rewrite Hb in Hp. split; [exact Hd|]. destruct (own s); auto; discriminate Hp.
  - rewrite Hb in Hp. split; [exact Hd|]. destruct (own s); auto; discriminate Hp.
  - rewrite Hb in Hp. split; [exact Hd|]. destruct (own s); auto; discriminate Hp.
  - rewrite Hb in Hp. split; [exact Hd|]. destruct (own s); auto; discriminate Hp.
  - rewrite Hb in Hp. split; [exact Hd|]. destruct (own s); auto; discriminate Hp.
  - auto.
  - rewrite Hb in Hp. split; [exact Hd|]. destruct (own s); auto; discriminate Hp.
  - rewrite Ho in Hp. auto.
Qed.

Lemma steps_inStep s s' : steps addr s s' -> inStep s -> inStep s'.
Proof.
  induction 1 as [|s1 s2 s3 Hstep _ IH]; intros H; [exact H|].
  apply IH. exact (step_inStep _ _ Hstep H).
Qed.

Lemma started_inStep s : started s -> inStep s.
Proof.
  intros (Hown & Hobs & Hd). unfold inStep. rewrite Hown. auto.
Qed.

End HandshakeMore.

(** X16. The input stays registered for as long as the poller may still
    write: along every run from a start in which the names of the input
    are in the registry, they are still there in every state in which
    [close] has not returned, and so in every state in which the poller
    has not yet taken the stop signal. *)
Theorem registered_while_polling :
  forall addr s0 s names,
    Handshake.started s0 ->
    registry (Handshake.world s0) !! unregister (Handshake.obj s0) = Some names ->
    Handshake.steps addr s0 s ->
    unregister (Handshake.obj s) = unregister (Handshake.obj s0)
    /\ (Handshake.own s <> Handshake.Closed ->
        registry (Handshake.world s) !! unregister (Handshake.obj s) = Some names)
    /\ (Handshake.observed (Handshake.bg s) = false ->
        registry (Handshake.world s) !! unregister (Handshake.obj s) = Some names).
Proof.
  intros addr s0 s names Hstart Hreg Hrun.
  assert (H0 : Handshake.registeredUntilClosed (unregister (Handshake.obj s0)) names s0)
    by (split; [reflexivity | intros _; exact Hreg]).
  destruct (steps_registered addr _ names s0 s Hrun H0) as [Hu Hr].
  pose proof (steps_inStep addr s0 s Hrun (started_inStep s0 Hstart)) as [_ Hp].
  split; [exact Hu|]. rewrite Hu.
  split; [exact Hr|].
  intros Hobs. apply Hr. intros Hc. rewrite Hc in Hp. congruence.
Qed.

(** [close] is called while a poll is in flight; the poll ends and sets
    the gauges, and the owner still waits in its send. *)
Lemma poll_ends_while_sending :
  Handshake.steps ["0100007F:1F90"] pollInFlight sendingAfterPoll.
Proof.
  unfold Handshake.steps, pollInFlight, sendingAfterPoll.
  eapply rtc_l; [eapply (Handshake.step_close _ _ (chan 0)); reflexivity|].
  eapply rtc_l;
    [eapply (Handshake.step_read_ok _ _ (fileWith table) 26 5);
       [reflexivity | vm_compute; reflexivity]|].
  eapply rtc_l; [eapply Handshake.step_set_rx; reflexivity|].
  eapply rtc_l; [eapply Handshake.step_set_drops; reflexivity|].
  apply rtc_refl.
Defined.

Lemma registered_while_polling_witness :
  unregister (Handshake.obj sendingAfterPoll) = "udp-1"
  /\ registry (Handshake.world sendingAfterPoll) !! "udp-1" = Some metricNames
  /\ rxQueue (Handshake.obj sendingAfterPoll) = 26.
Proof.
  destruct (registered_while_polling ["0100007F:1F90"] pollInFlight
              sendingAfterPoll metricNames) as (Hu & Hown & Hobs).
  - repeat split; simpl; eauto.
  - reflexivity.
  - exact poll_ends_while_sending.
  - split; [exact Hu|]. split; [|reflexivity].
    apply Hown. discriminate.
Defined.

(** From a state in which the poller has not taken the signal, the
    poller can end the poll it is in and come back to its [select]. *)
Lemma poller_can_reach_select addr s :
  Handshake.observed (Handshake.bg s) = false ->
  exists s',
    Handshake.steps addr s s'
    /\ Handshake.bg s' = Handshake.Selecting
    /\ Handshake.own s' = Handshake.own s
    /\ done (Handshake.obj s') = done (Handshake.obj s).
Proof.
  intros Hb. unfold Handshake.steps.
  destruct (Handshake.bg s) as [| |rx dr|dr| |] eqn:E; try discriminate Hb.
  - exists s. split; [apply rtc_refl | auto].
  - eexists. split.
    + eapply rtc_l; [eapply (Handshake.step_read_fail addr s noFile);
                       [exact E | reflexivity]|].
      apply rtc_refl.
    + simpl. auto.
  - eexists. split.
    + eapply rtc_l; [eapply Handshake.step_set_rx; exact E|].
      eapply rtc_l; [eapply Handshake.step_set_drops; reflexivity|].
      apply rtc_refl.
    + simpl. auto.
  - eexists. split.
    + eapply rtc_l; [eapply Handshake.step_set_drops; exact E|].
      apply rtc_refl.
    + simpl. auto.
Qed.

(** From a state in which the owner waits in its send and the poller in
    its [select], the handshake runs to its end. *)
Lemma handshake_completes addr s c :
  Handshake.own s = Handshake.Sending ->
  Handshake.bg s = Handshake.Selecting ->
  done (Handshake.obj s) = Some c ->
  exists s',
    Handshake.steps addr s s'
    /\ Handshake.own s' = Handshake.Closed /\ Handshake.bg s' = Handshake.Exited.
Proof.
  intros Ho Hb Hd. eexists. split.
  - eapply rtc_l; [eapply Handshake.step_handover; [exact Ho | exact Hb]|].
    eapply rtc_l; [eapply Handshake.step_ticker_stop; [reflexivity | exact Hd]|].
    eapply rtc_l; [eapply Handshake.step_unregister; reflexivity|].
    apply rtc_refl.
  - simpl. auto.
Qed.

(** X17. The shutdown cannot get stuck: from every state that a run can
    reach from a start, whatever the poller and the owner are doing,
    there is a run on to a state in which [close] has returned and
    [poll] has returned. *)
Theorem shutdown_can_complete :
  forall addr s0 s,
    Handshake.started s0 ->
    Handshake.steps addr s0 s ->
    exists s',
      Handshake.steps addr s s'
      /\ Handshake.own s' = Handshake.Closed
      /\ Handshake.bg s' = Handshake.Exited.
Proof.
  intros addr s0 s Hstart Hrun.
  pose proof (steps_inStep addr s0 s Hrun (started_inStep s0 Hstart)) as [[c Hd] Hp].
  destruct (Handshake.own s) eqn:Ho.
  - destruct (poller_can_reach_select addr s Hp) as (s1 & Hs1 & Hb1 & Ho1 & Hd1).
    destruct (handshake_completes addr
                (Handshake.mkState Handshake.Sending (Handshake.bg s1)
                   (Handshake.obj s1) (Handshake.world s1)) c)
      as (s' & Hs' & Hc & He); [reflexivity | exact Hb1 | simpl; congruence |].
    exists s'. split; [|auto].
    eapply rtc_trans; [exact Hs1|].
    eapply rtc_l; [eapply (Handshake.step_close addr s1 c); congruence|].
    exact Hs'.
  - destruct (poller_can_reach_select addr s Hp) as (s1 & Hs1 & Hb1 & Ho1 & Hd1).
    destruct (handshake_completes addr s1 c) as (s' & Hs' & Hc & He);
      [congruence | exact Hb1 | congruence |].
    exists s'. split; [|auto].
    eapply rtc_trans; [exact Hs1 | exact Hs'].
  - destruct (Handshake.bg s) eqn:Hb; try discriminate Hp.
    + eexists. split.
      * eapply rtc_l; [eapply Handshake.step_ticker_stop; [exact Hb | exact Hd]|].
        eapply rtc_l; [eapply Handshake.step_unregister; simpl; exact Ho|].
        apply rtc_refl.
      * simpl. auto.
    + eexists. split.
      * eapply rtc_l; [eapply Handshake.step_unregister; exact Ho|].
        apply rtc_refl.
      * simpl. auto.
  - destruct (Handshake.bg s) eqn:Hb; try discriminate Hp.
    + eexists. split.
      * eapply rtc_l; [eapply Handshake.step_ticker_stop; [exact Hb | exact Hd]|].
        apply rtc_refl.
      * simpl. auto.
    + exists s. split; [apply rtc_refl | auto].
Qed.

Lemma shutdown_can_complete_witness :
  exists s',
    Handshake.steps ["0100007F:1F90"] closedAfterPoll s'
    /\ Handshake.own s' = Handshake.Closed
    /\ Handshake.bg s' = Handshake.Exited.
Proof.
  apply (shutdown_can_complete ["0100007F:1F90"] pollInFlight closedAfterPoll).
  - repeat split; simpl; eauto.
  - exact close_during_poll_run.
Defined.

(** ** Keys that read back *)

Lemma digitAt_udigits d :
  0 <= d < 16 -> Strconv.digitVal (Strconv.digitAt Strconv.udigits d) = Some d.
Proof.
  intros H. assert (Hd : d = Z.of_nat (Z.to_nat d)) by lia.
  rewrite Hd. assert (Hk : (Z.to_nat d < 16)%nat) by lia.
  generalize dependent (Z.to_nat d). intros k _ Hk.
  do 16 (destruct k as [|k]; [vm_compute; reflexivity|]). lia.
Qed.

Lemma digitAt_digits d :
  0 <= d < 16 -> Strconv.digitVal (Strconv.digitAt Strconv.digits d) = Some d.
Proof.
  intros H. assert (Hd : d = Z.of_nat (Z.to_nat d)) by lia.
  rewrite Hd. assert (Hk : (Z.to_nat d < 16)%nat) by lia.
  generalize dependent (Z.to_nat d). intros k _ Hk.
  do 16 (destruct k as [|k]; [vm_compute; reflexivity|]). lia.
Qed.

(** The hexadecimal digits written by [formatBits], on either table,
    write the number they were given, and are all digits. *)
Lemma formatLoop_hex tbl :
  (forall d, 0 <= d < 16 -> Strconv.digitVal (Strconv.digitAt tbl d) = Some d) ->
  forall fuel u acc,
    0 <= u < 16 ^ (Z.of_nat fuel + 1) ->
    valueFrom 16 0 (Strconv.formatLoop fuel tbl 16 u acc) = valueFrom 16 u acc
    /\ (hexText acc = true ->
        hexText (Strconv.formatLoop fuel tbl 16 u acc) = true)
    /\ exists c s, Strconv.formatLoop fuel tbl 16 u acc = String c s.
Proof.
  intros Htbl. induction fuel as [|fuel IH]; intros u acc Hu.
  - change (16 ^ (Z.of_nat 0 + 1)) with 16 in Hu.
    simpl. rewrite (Htbl u Hu). split; [reflexivity|].
    split; [|eauto]. intros Hacc. unfold hexText in *. simpl.
    unfold isDigitOf at 1. rewrite (Htbl u Hu).
    destruct (u <? 16) eqn:E; [exact Hacc | apply Z.ltb_ge in E; lia].
  - cbn [Strconv.formatLoop]. destruct (16 <=? u) eqn:E.
    + apply Z.leb_le in E.
      assert (Hq : 0 <= u / 16 < 16 ^ (Z.of_nat fuel + 1)).
      { rewrite Nat2Z.inj_succ in Hu.
        replace (Z.succ (Z.of_nat fuel) + 1) with (Z.of_nat fuel + 1 + 1) in Hu by lia.
        rewrite Z.pow_add_r in Hu by lia. change (16 ^ 1) with 16 in Hu.
        split; [apply Z.div_pos; lia|].
        apply Z.div_lt_upper_bound; lia. }
      assert (Hr : 0 <= u mod 16 < 16) by (apply Z.mod_pos_bound; lia).
      destruct (IH (u / 16) (String (Strconv.digitAt tbl (u mod 16)) acc) Hq)
        as (Hv & Ht & Hne).
      split.
      * rewrite Hv. simpl. rewrite (Htbl _ Hr).
        replace (u / 16 * 16 + u mod 16) with u
          by (rewrite (Z.div_mod u 16) at 1; lia).
        reflexivity.
      * split; [|exact Hne]. intros Hacc. apply Ht.
        unfold hexText in *. simpl. unfold isDigitOf at 1. rewrite (Htbl _ Hr).
        destruct (u mod 16 <? 16) eqn:E2; [exact Hacc | apply Z.ltb_ge in E2; lia].
    + apply Z.leb_gt in E. assert (Hu' : 0 <= u < 16) by lia.
      simpl. rewrite (Htbl u Hu'). split; [reflexivity|].
      split; [|eauto]. intros Hacc. unfold hexText in *. simpl.
      unfold isDigitOf at 1. rewrite (Htbl u Hu').
      destruct (u <? 16) eqn:E2; [exact Hacc | apply Z.ltb_ge in E2; lia].
Qed.

Lemma hexText_without_colon s : hexText s = true -> without ":" s = true.
Proof.
  unfold hexText, without. induction s as [|c s' IH]; simpl; [reflexivity|].
  intros H. apply andb_prop in H. destruct H as [Hc Hs].
  rewrite (IH Hs), andb_true_r.
  destruct (Ascii.eqb c ":") eqn:E; [|reflexivity].
  apply Ascii.eqb_eq in E. subst c. discriminate Hc.
Qed.

(** [%X] of a number below 2^64: a non-empty text of hexadecimal digits
    that writes the number. *)
Lemma X_reads_back u :
  0 <= u < 2 ^ 64 ->
  hexValue (Fmt.X u) = u /\ hexText (Fmt.X u) = true
  /\ exists c s, Fmt.X u = String c s.
Proof.
  intros Hu. unfold Fmt.X, Strconv.formatBits, hexValue.
  destruct (formatLoop_hex Strconv.udigits digitAt_udigits 64 u "") as (Hv & Ht & Hne).
  - split; [lia|]. change (16 ^ (Z.of_nat 64 + 1)) with (2 ^ 260).
    assert (2 ^ 64 < 2 ^ 260) by (apply Z.pow_lt_mono_r; lia). lia.
  - split; [exact Hv|]. split; [apply Ht; reflexivity | exact Hne].
Qed.

Lemma lor_below n a b :
  0 <= n -> 0 <= a < 2 ^ n -> 0 <= b < 2 ^ n -> 0 <= Z.lor a b < 2 ^ n.
Proof.
  intros Hn Ha Hb. split; [apply Z.lor_nonneg; lia|].
  destruct (Z.eq_dec a 0) as [->|Hna]; [rewrite Z.lor_0_l; lia|].
  destruct (Z.eq_dec b 0) as [->|Hnb]; [rewrite Z.lor_0_r; lia|].
  assert (Hl : 0 < Z.lor a b).
  { assert (0 <= Z.lor a b) by (apply Z.lor_nonneg; lia).
    destruct (Z.eq_dec (Z.lor a b) 0) as [E|E]; [|lia].
    apply Z.lor_eq_0_iff in E. lia. }
  apply Z.log2_lt_pow2; [exact Hl|].
  rewrite Z.log2_lor by lia.
  assert (Z.log2 a < n) by (apply Z.log2_lt_pow2; lia).
  assert (Z.log2 b < n) by (apply Z.log2_lt_pow2; lia).
  lia.
Qed.

Lemma byteVal_range b : 0 <= Net.byteVal b < 256.
Proof. destruct b; vm_compute; split; congruence. Qed.

Lemma Uint32_range b : 0 <= Binary.LittleEndian_Uint32 b < 2 ^ 32.
Proof.
  unfold Binary.LittleEndian_Uint32.
  pose proof (byteVal_range (nth 0 b Byte.x00)) as H0.
  pose proof (byteVal_range (nth 1 b Byte.x00)) as H1.
  pose proof (byteVal_range (nth 2 b Byte.x00)) as H2.
  pose proof (byteVal_range (nth 3 b Byte.x00)) as H3.
  rewrite !Z.shiftl_mul_pow2 by lia.
  change (2 ^ 8) with 256. change (2 ^ 16) with 65536. change (2 ^ 24) with 16777216.
  change (2 ^ 32) with 4294967296.
  repeat apply (lor_below 32); try lia.
Qed.

Lemma ParseUint_hex32 c s :
  hexText (String c s) = true ->
  hexValue (String c s) < 2 ^ 32 ->
  Strconv.ParseUint (String c s) 16 32 = Ok (hexValue (String c s)).
Proof.
  intros Hs Hv. unfold Strconv.ParseUint, Strconv.parseUint.
  change ((16 <? 2) || (36 <? 16)) with false.
  change ((32 <? 0) || (64 <? 32)) with false.
  change (32 =? 0) with false. cbv iota.
  rewrite (parseDigits_value 16 (2 ^ 32 - 1) (String c s));
    [| lia | unfold Strconv.maxUint64; lia | lia | exact Hs].
  fold (hexValue (String c s)).
  destruct (hexValue (String c s) <=? 2 ^ 32 - 1) eqn:E;
    [reflexivity | apply Z.leb_gt in E; lia].
Qed.

(** X18. The address part of a key reads back: for an address with a
    4-byte form and any text of a port, the key is cut at its first
    colon into a text of hexadecimal digits, which [ParseUint] (base 16,
    32 bits) reads as the little-endian integer of the four bytes, and
    the text of the port. *)
Theorem key_reads_back :
  forall ip rest ph,
    hasV4 ip = true ->
    exists k h,
      addrKeys (ip :: rest) ph = k :: addrKeys rest ph
      /\ GoStrings.Cut k ":" = (h, ph, true)
      /\ hexText h = true
      /\ Strconv.ParseUint h 16 32 = Ok (Binary.LittleEndian_Uint32 (Net.To4 ip)).
Proof.
  intros ip rest ph H4. unfold hasV4 in H4.
  pose proof (Uint32_range (Net.To4 ip)) as Hr.
  destruct (X_reads_back (Binary.LittleEndian_Uint32 (Net.To4 ip)))
    as (Hv & Ht & c & s & Hx); [change (2 ^ 64) with 18446744073709551616;
                                change (2 ^ 32) with 4294967296 in Hr; lia|].
  exists (Fmt.Sprintf_X_s (Binary.LittleEndian_Uint32 (Net.To4 ip)) ph),
         (Fmt.X (Binary.LittleEndian_Uint32 (Net.To4 ip))).
  split; [simpl; rewrite H4; reflexivity|].
  split; [unfold Fmt.Sprintf_X_s;
          apply (Cut_at_first ":" _ ph); apply hexText_without_colon; exact Ht|].
  split; [exact Ht|].
  rewrite Hx in Hv, Ht |- *. rewrite ParseUint_hex32; [rewrite Hv; reflexivity | exact Ht | lia].
Qed.

Lemma key_reads_back_witness :
  exists k h,
    addrKeys [loopback16] "1f90" = k :: addrKeys [] "1f90"
    /\ GoStrings.Cut k ":" = (h, "1f90", true)
    /\ hexText h = true
    /\ Strconv.ParseUint h 16 32
       = Ok (Binary.LittleEndian_Uint32 (Net.To4 loopback16)).
Proof.
  apply (key_reads_back loopback16 [] "1f90"). reflexivity.
Defined.

Lemma addrKeys_map_filter ips ph :
  addrKeys ips ph = map (keyOf ph) (List.filter hasV4 ips).
Proof.
  induction ips as [|ip rest IH]; [reflexivity|].
  cbn [addrKeys List.filter]. unfold hasV4 at 1.
  destruct (length (Net.To4 ip) =? Net.IPv4len)%nat; simpl;
    [rewrite IH; reflexivity | exact IH].
Qed.

Lemma filter_none {A} (f : A -> bool) l :
  forallb (fun x => negb (f x)) l = true -> List.filter f l = [].
Proof.
  induction l as [|x l' IH]; [reflexivity|].
  cbn [forallb List.filter]. destruct (f x); [discriminate|]. exact IH.
Qed.

(** X19. The keys are those of the addresses with a 4-byte form, one
    each and in the order of the resolver; the other addresses give
    nothing, so a host with none gives no key. *)
Theorem keys_are_the_v4_addresses :
  forall ips ph,
    addrKeys ips ph = map (keyOf ph) (List.filter hasV4 ips)
    /\ length (addrKeys ips ph) = length (List.filter hasV4 ips)
    /\ (forallb (fun ip => negb (hasV4 ip)) ips = true -> addrKeys ips ph = []).
Proof.
  intros ips ph. rewrite addrKeys_map_filter.
  split; [reflexivity|]. split; [apply length_map|].
  intros Hall. rewrite (filter_none hasV4 ips Hall). reflexivity.
Qed.

(** ** Which listen addresses resolve *)

Lemma FormatInt_hex_reads_back v :
  0 <= v < 2 ^ 63 ->
  hexValue (Strconv.FormatInt v 16) = v
  /\ hexText (Strconv.FormatInt v 16) = true.
Proof.
  intros Hv. unfold Strconv.FormatInt, Strconv.formatBits.
  destruct (v <? 0) eqn:E; [apply Z.ltb_lt in E; lia|].
  destruct (formatLoop_hex Strconv.digits digitAt_digits 64 v "") as (H1 & H2 & _).
  - split; [lia|]. change (16 ^ (Z.of_nat 64 + 1)) with (2 ^ 260).
    assert (2 ^ 63 < 2 ^ 260) by (apply Z.pow_lt_mono_r; lia). lia.
  - split; [exact H1 | apply H2; reflexivity].
Qed.

(** X20. A listen address made of a host with no colon, a colon and a
    decimal port of at most 32767 resolves whenever the host does: the
    keys are those of the addresses of the host, each with the port in
    hexadecimal, a text of hexadecimal digits that writes the port. *)
Theorem resolveAddr_succeeds :
  forall env host c ps ips,
    without ":" host = true ->
    LookupIP env host = Ok ips ->
    stringForall decimalDigit (String c ps) = true ->
    decimalValue (String c ps) <= 32767 ->
    resolveAddr env (host ++ String ":" (String c ps))
    = inr (addrKeys ips (Strconv.FormatInt (decimalValue (String c ps)) 16))
    /\ hexText (Strconv.FormatInt (decimalValue (String c ps)) 16) = true
    /\ hexValue (Strconv.FormatInt (decimalValue (String c ps)) 16)
       = decimalValue (String c ps).
Proof.
  intros env host c ps ips Hh Hl Hd Hv.
  pose proof (decimalFrom_ge (String c ps) 0 ltac:(lia) Hd) as Hge.
  fold (decimalValue (String c ps)) in Hge.
  destruct (FormatInt_hex_reads_back (decimalValue (String c ps))) as [H1 H2];
    [change (2 ^ 63) with 9223372036854775808; lia|].
  split; [|split; [exact H2 | exact H1]].
  unfold resolveAddr. rewrite (Cut_at_first ":" host _ Hh).
  cbn [negb]. cbv iota. rewrite Hl, (parse_port_decimal c ps Hd).
  apply Z.leb_le in Hv. rewrite Hv. reflexivity.
Qed.

Lemma resolveAddr_succeeds_witness :
  resolveAddr (literalEnv "linux") ("127.0.0.1" ++ String ":" "8080")
  = inr (addrKeys [loopback16] (Strconv.FormatInt (decimalValue "8080") 16))
  /\ hexText (Strconv.FormatInt (decimalValue "8080") 16) = true
  /\ hexValue (Strconv.FormatInt (decimalValue "8080") 16) = decimalValue "8080".
Proof.
  apply (resolveAddr_succeeds (literalEnv "linux") "127.0.0.1" "8" "080" [loopback16]).
  - reflexivity.
  - reflexivity.
  - reflexivity.
  - vm_compute. discriminate.
Defined.

Lemma parseDigits_colon base maxVal s :
  without ":" s = false ->
  forall n, exists e, Strconv.parseDigits base maxVal n s = inr e.
Proof.
  unfold without. induction s as [|c s' IH]; intros H n; simpl in *.
  - discriminate H.
  - destruct (Ascii.eqb c ":") eqn:E.
    + apply Ascii.eqb_eq in E. subst c.
      change (Strconv.digitVal ":") with (@None Z). eauto.
    + simpl in H. destruct (Strconv.digitVal c) as [d|]; [|eauto].
      destruct (base <=? d); [eauto|].
      destruct (Strconv.maxUint64 / base + 1 <=? n); [eauto|].
      destruct ((Strconv.maxUint64 <? n * base + d) || (maxVal <? n * base + d));
        [eauto | apply IH; exact H].
Qed.

Lemma ParseInt_colon s base bitSize :
  without ":" s = false ->
  exists e, Strconv.ParseInt s base bitSize = Err e.
Proof.
  intros H. unfold Strconv.ParseInt. destruct s as [|c rest]; [eauto|].
  set (t := if Ascii.eqb c "+" || Ascii.eqb c "-" then rest else String c rest).
  assert (Ht : without ":" t = false).
  { unfold t. destruct (Ascii.eqb c "+" || Ascii.eqb c "-") eqn:E; [|exact H].
    unfold without in *. simpl in H.
    destruct (Ascii.eqb c ":") eqn:Ec.
    - apply Ascii.eqb_eq in Ec. subst c. discriminate E.
    - exact H. }
  unfold Strconv.parseUint.
  destruct t as [|c' t'] eqn:Et; [eauto|].
  destruct ((base <? 2) || (36 <? base)); [eauto|].
  destruct ((bitSize <? 0) || (64 <? bitSize)); [eauto|].
  destruct (parseDigits_colon base
              (2 ^ (if bitSize =? 0 then 64 else bitSize) - 1) (String c' t') Ht 0)
    as (e & He).
  rewrite He. eauto.
Qed.

(** X21. The listen address is cut at its first colon, so an address
    with a colon after the first one, such as an IPv6 literal with a
    port, never resolves: the text after the first colon is no port, and
    the constructor is left with a warning, for the host or for the
    port. *)
Theorem second_colon_never_resolves :
  forall env host rest,
    without ":" host = true ->
    without ":" rest = false ->
    exists e,
      resolveAddr env (host ++ String ":" rest)
      = inl (WarnAddress (host ++ String ":" rest) e)
      \/ resolveAddr env (host ++ String ":" rest)
         = inl (WarnPort (host ++ String ":" rest) e).
Proof.
  intros env host rest Hh Hr. unfold resolveAddr.
  rewrite (Cut_at_first ":" host rest Hh). cbn [negb]. cbv iota.
  destruct (LookupIP env host) as [ips|e]; [|eauto].
  destruct (ParseInt_colon rest 10 16 Hr) as (e & He). rewrite He. eauto.
Qed.

Lemma second_colon_witness :
  exists e,
    resolveAddr (literalEnv "linux") ("[" ++ String ":" ":1]:8080")
    = inl (WarnAddress ("[" ++ String ":" ":1]:8080") e)
    \/ resolveAddr (literalEnv "linux") ("[" ++ String ":" ":1]:8080")
       = inl (WarnPort ("[" ++ String ":" ":1]:8080") e).
Proof.
  apply (second_colon_never_resolves (literalEnv "linux") "[" ":1]:8080").
  - reflexivity.
  - reflexivity.
Defined.

(** ** The callback of [Run] *)

Lemma onPacket_event metrics published data metadata tNow amb :
  exists evt,
    onPacket metrics published data metadata tNow amb
    = ((published ++ [evt])%list, log metrics data tNow amb)
    /\ Timestamp evt = tNow
    /\ message evt = Some (MString data)
    /\ Meta evt !! "truncated" = Some (MBool (Truncated metadata))
    /\ (is_Some (Fields evt !! "log") <-> is_Some (RemoteAddr metadata)).
Proof.
  unfold onPacket, message. destruct (RemoteAddr metadata) as [a|]; simpl.
  - eexists. split; [reflexivity|]. simpl.
    split; [reflexivity|].
    split; [rewrite lookup_insert_ne by discriminate; apply lookup_singleton_eq|].
    split; [apply lookup_singleton_eq|].
    rewrite lookup_insert_eq. split; eauto.
  - eexists. split; [reflexivity|]. simpl.
    split; [reflexivity|].
    split; [apply lookup_singleton_eq|].
    split; [apply lookup_singleton_eq|].
    rewrite lookup_singleton_ne by discriminate.
    split; intros [x Hx]; discriminate Hx.
Qed.

(** The callback along the packets: the events are added after those
    published before, one for each packet and in their order, and the
    metrics are those of the [log] calls of the packets. *)
Lemma serve_events pkts :
  forall metrics published,
    exists evs,
      serve metrics published pkts
      = ((published ++ evs)%list, logAll metrics (map callOf pkts))
      /\ map Timestamp evs = map pkNow pkts
      /\ map message evs = map (fun p => Some (MString (pkData p))) pkts
      /\ map (fun e => Meta e !! "truncated") evs
         = map (fun p => Some (MBool (Truncated (pkMeta p)))) pkts
      /\ Forall2 (fun e p => is_Some (Fields e !! "log")
                             <-> is_Some (RemoteAddr (pkMeta p))) evs pkts.
Proof.
  induction pkts as [|p rest IH]; intros metrics published.
  - exists []. simpl. rewrite app_nil_r. repeat split; constructor.
  - destruct (onPacket_event metrics published (pkData p) (pkMeta p) (pkNow p)
                (pkAmbient p)) as (evt & Hon & Ht & Hm & Htr & Hlog).
    destruct (IH (log metrics (pkData p) (pkNow p) (pkAmbient p))
                 (published ++ [evt])%list)
      as (evs & Hs & Hts & Hms & Htrs & Hlogs).
    exists (evt :: evs). cbn [serve]. rewrite Hon, Hs.
    split; [rewrite <- app_assoc; reflexivity|].
    cbn [map]. rewrite Hts, Hms, Htrs, Ht, Hm, Htr.
    repeat split; constructor; assumption.
Qed.

Lemma sumSizes_callOf pkts :
  sumSizes (map callOf pkts)
  = fold_right (fun p acc => Z.of_nat (String.length (pkData p)) + acc) 0 pkts.
Proof.
  induction pkts as [|p rest IH]; [reflexivity|].
  cbn [map fold_right]. rewrite <- IH. reflexivity.
Qed.

(** X22. With metrics on (a non-empty identifier), the callback of
    [Run] along any packets publishes one event for each packet, in
    their order, with the data as message, the truncation flag in the
    meta data and the source address exactly when the packet has one;
    and the counters then hold the number of events published and the
    total size of the data, as unsigned 64-bit integers. *)
Theorem serve_publishes_and_counts :
  forall env id host buflen poll0 w pkts,
    id <> "" ->
    exists evs m,
      serve (fst (newInputMetrics env id host buflen poll0 w)) [] pkts
      = (evs, Some m)
      /\ length evs = length pkts
      /\ map message evs = map (fun p => Some (MString (pkData p))) pkts
      /\ map Timestamp evs = map pkNow pkts
      /\ map (fun e => Meta e !! "truncated") evs
         = map (fun p => Some (MBool (Truncated (pkMeta p)))) pkts
      /\ Forall2 (fun e p => is_Some (Fields e !! "log")
                             <-> is_Some (RemoteAddr (pkMeta p))) evs pkts
      /\ packets m = Monitoring.uint64 (Z.of_nat (length evs))
      /\ bytes m
         = Monitoring.uint64
             (fold_right (fun p acc => Z.of_nat (String.length (pkData p)) + acc)
                         0 pkts).
Proof.
  intros env id host buflen poll0 w pkts Hid.
  destruct (newInputMetrics_fresh env id host buflen poll0 w Hid)
    as (m0 & Hm0 & Hp0 & Hb0 & _).
  rewrite Hm0.
  destruct (serve_events pkts (Some m0) []) as (evs & Hs & Hts & Hms & Htrs & Hlogs).
  destruct (logAll_counters (map callOf pkts) m0) as (m & Hall & Hp & Hb & _);
    [rewrite Hp0; reflexivity | rewrite Hb0; reflexivity |].
  assert (Hlen : length evs = length pkts).
  { rewrite <- (length_map Timestamp evs), Hts. apply length_map. }
  exists evs, m. rewrite Hs, Hall. simpl.
  split; [reflexivity|]. split; [exact Hlen|].
  split; [exact Hms|]. split; [exact Hts|]. split; [exact Htrs|].
  split; [exact Hlogs|].
  rewrite Hp, Hb, Hp0, Hb0, length_map, Hlen, sumSizes_callOf. simpl. auto.
Qed.

Lemma serve_publishes_witness :
  exists evs m,
    serve (fst (newInputMetrics (literalEnv "linux") "udp-1" "127.0.0.1:8080" 0
                  Minute emptyWorld)) [] twoPackets
    = (evs, Some m)
    /\ length evs = length twoPackets
    /\ map message evs = map (fun p => Some (MString (pkData p))) twoPackets
    /\ map Timestamp evs = map pkNow twoPackets
    /\ map (fun e => Meta e !! "truncated") evs
       = map (fun p => Some (MBool (Truncated (pkMeta p)))) twoPackets
    /\ Forall2 (fun e p => is_Some (Fields e !! "log")
                           <-> is_Some (RemoteAddr (pkMeta p))) evs twoPackets
    /\ packets m = Monitoring.uint64 (Z.of_nat (length evs))
    /\ bytes m
       = Monitoring.uint64
           (fold_right (fun p acc => Z.of_nat (String.length (pkData p)) + acc)
                       0 twoPackets).
Proof.
  apply (serve_publishes_and_counts (literalEnv "linux") "udp-1" "127.0.0.1:8080"
           0 Minute emptyWorld twoPackets).
  discriminate.
Defined.

(** X23. The metrics play no part in what is published: with metrics
    off (nil) the callback publishes the events it publishes with
    metrics on, and the metrics stay nil. *)
Theorem serve_publishes_without_metrics :
  forall m pkts published,
    fst (serve None published pkts) = fst (serve (Some m) published pkts)
    /\ snd (serve None published pkts) = None.
Proof.
  intros m pkts published.
  destruct (serve_events pkts None published) as (evs1 & H1 & _).
  assert (Hgen : forall metrics metrics' pub,
             fst (serve metrics pub pkts) = fst (serve metrics' pub pkts)).
  { clear. induction pkts as [|p rest IH]; intros metrics metrics' pub.
    - reflexivity.
    - cbn [serve]. unfold onPacket. apply IH. }
  split; [apply Hgen|].
  rewrite H1. simpl. apply logAll_nil.
Qed.

Lemma Update_Forall (P : Z -> Prop) s v r :
  Forall P (Metrics.values s) -> P v ->
  Forall P (Metrics.values (Metrics.Update s v r)).
Proof.
  intros Hs Hv. unfold Metrics.Update.
  destruct (Z.of_nat (length (Metrics.values s)) <? Metrics.reservoirSize s); simpl.
  - apply Forall_app. split; [exact Hs | constructor; [exact Hv | constructor]].
  - destruct (r <? Z.of_nat (length (Metrics.values s))); simpl;
      [apply Forall_insert; assumption | exact Hs].
Qed.

Lemma logAll_latency_nonneg calls :
  forall m,
    Forall (fun v => 0 <= v) (Metrics.values (processingTime m)) ->
    Forall (fun c => cTimestamp c <= now (cAmbient c)) calls ->
    exists m',
      logAll (Some m) calls = Some m'
      /\ Forall (fun v => 0 <= v) (Metrics.values (processingTime m')).
Proof.
  induction calls as [|c rest IH]; intros m Hm Hc.
  - exists m. auto.
  - inversion Hc as [|? ? Hc1 Hrest]; subst.
    destruct (log_samples m (cData c) (cTimestamp c) (cAmbient c))
      as (m1 & Hlog & Hpt & _).
    destruct (IH m1) as (m' & Hall & Hm'); [|exact Hrest|].
    + rewrite Hpt. apply Update_Forall; [exact Hm|].
      apply sub_nonneg_iff. exact Hc1.
    + exists m'.
      change (logAll (Some m) (c :: rest))
        with (logAll (log (Some m) (cData c) (cTimestamp c) (cAmbient c)) rest).
      rewrite Hlog. auto.
Qed.

(** X24. In the callback of [Run] the receipt time handed to [log] is
    the time of the event, read before the event is published: when the
    clock does not go back between the making of an event and the [log]
    call that follows its publication, every value in the
    processing-time reservoir is non-negative. *)
Theorem serve_latency_nonneg :
  forall env id host buflen poll0 w pkts,
    id <> "" ->
    Forall (fun p => pkNow p <= now (pkAmbient p)) pkts ->
    exists evs m,
      serve (fst (newInputMetrics env id host buflen poll0 w)) [] pkts
      = (evs, Some m)
      /\ Forall (fun v => 0 <= v) (Metrics.values (processingTime m)).
Proof.
  intros env id host buflen poll0 w pkts Hid Hclock.
  destruct (newInputMetrics_fresh env id host buflen poll0 w Hid)
    as (m0 & Hm0 & _ & _ & _ & _ & _ & _ & Hv & _).
  rewrite Hm0.
  destruct (serve_events pkts (Some m0) []) as (evs & Hs & _).
  destruct (logAll_latency_nonneg (map callOf pkts) m0) as (m & Hall & Hm).
  - rewrite Hv. constructor.
  - clear -Hclock. induction Hclock as [|p rest Hp _ IH]; constructor; assumption.
  - exists evs, m. rewrite Hs, Hall. auto.
Qed.

Lemma serve_latency_witness :
  exists evs m,
    serve (fst (newInputMetrics (literalEnv "linux") "udp-1" "127.0.0.1:8080" 0
                  Minute emptyWorld)) [] twoPackets
    = (evs, Some m)
    /\ Forall (fun v => 0 <= v) (Metrics.values (processingTime m)).
Proof.
  apply (serve_latency_nonneg (literalEnv "linux") "udp-1" "127.0.0.1:8080" 0
           Minute emptyWorld twoPackets).
  - discriminate.
  - repeat constructor; simpl; lia.
Defined.

(** ** [Run] from start to end *)

Lemma logAll_keeps_identity calls :
  forall m,
    exists m',
      logAll (Some m) calls = Some m'
      /\ done m' = done m /\ unregister m' = unregister m.
Proof.
  induction calls as [|c rest IH]; intros m.
  - exists m. auto.
  - destruct (log_fields m (cData c) (cTimestamp c) (cAmbient c))
      as (m1 & Hlog & _ & _ & _ & _ & _ & _ & Hd & Hu).
    destruct (IH m1) as (m' & Hall & Hd' & Hu').
    exists m'.
    change (logAll (Some m) (c :: rest))
      with (logAll (log (Some m) (cData c) (cTimestamp c) (cAmbient c)) rest).
    rewrite Hlog. split; [exact Hall|]. split; congruence.
Qed.

(** [close] on the object of a construction, after any calls of [log],
    gives back the registry and the pollers of before the
    construction. *)
Lemma close_after_logs_restores env id device0 buflen poll0 w calls :
  registry w !! id = None ->
  freshChans w ->
  exists w',
    close (logAll (fst (newInputMetrics env id device0 buflen poll0 w)) calls)
          (snd (newInputMetrics env id device0 buflen poll0 w)) = Returned w'
    /\ registry w' = registry w
    /\ pollers w' = pollers w.
Proof.
  intros Hreg Hfresh.
  destruct (String.eqb id "") eqn:Eid.
  - apply String.eqb_eq in Eid. subst id.
    rewrite newInputMetrics_empty_id. simpl. rewrite logAll_nil.
    exists w. auto.
  - assert (Hid : id <> "") by (intros ->; discriminate Eid).
    destruct (Z_le_gt_dec poll0 0) as [Hp|Hp];
      [|destruct (string_dec (GOOS env) "linux") as [Hos|Hos];
        [destruct (resolveAddr env device0) as [x|addr] eqn:E|]].
    + rewrite (newInputMetrics_gate_closed env id device0 buflen poll0 w Hid
                 (or_introl Hp)). simpl.
      destruct (logAll_keeps_identity calls (freshMetrics id device0 buflen))
        as (m' & Hall & Hd & Hu).
      rewrite Hall. unfold close. rewrite Hd, Hu. simpl.
      eexists. split; [reflexivity|]. simpl.
      split; [apply delete_insert_id; exact Hreg | reflexivity].
    + rewrite (newInputMetrics_unresolved env id device0 buflen poll0 w x Hid
                 ltac:(lia) Hos E). simpl.
      destruct (logAll_keeps_identity calls (freshMetrics id device0 buflen))
        as (m' & Hall & Hd & Hu).
      rewrite Hall. unfold close. rewrite Hd, Hu. simpl.
      eexists. split; [reflexivity|]. simpl.
      split; [apply delete_insert_id; exact Hreg | reflexivity].
    + rewrite (newInputMetrics_resolved env id device0 buflen poll0 w addr Hid
                 ltac:(lia) Hos E). simpl.
      destruct (logAll_keeps_identity calls
                  (set_done (Some (chan (nextChan w))) (freshMetrics id device0 buflen)))
        as (m' & Hall & Hd & Hu).
      rewrite Hall. unfold close. rewrite Hd, Hu. simpl.
      unfold send. simpl. unfold listens at 1. simpl. rewrite Nat.eqb_refl. simpl.
      eexists. split; [reflexivity|]. simpl.
      split; [apply delete_insert_id; exact Hreg|].
      unfold listens at 1. simpl. rewrite Nat.eqb_refl. simpl.
      apply listens_fresh_none. exact Hfresh.
    + rewrite (newInputMetrics_gate_closed env id device0 buflen poll0 w Hid
                 (or_intror Hos)). simpl.
      destruct (logAll_keeps_identity calls (freshMetrics id device0 buflen))
        as (m' & Hall & Hd & Hu).
      rewrite Hall. unfold close. rewrite Hd, Hu. simpl.
      eexists. split; [reflexivity|]. simpl.
      split; [apply delete_insert_id; exact Hreg | reflexivity].
Qed.

(** X25. [Run] leaves nothing behind: when the identifier was not
    registered before and the channels of the live pollers are older
    than the next fresh one, whatever the packets, the deferred [close]
    returns, the registry and the pollers are afterwards what they were
    before [Run], one event was published for each packet, and the error
    returned is that of the cancellation when there is one, else that of
    the server. *)
Theorem Run_leaves_nothing_behind :
  forall env id host readBuffer pkts serverErr ctxErr w,
    registry w !! id = None ->
    freshChans w ->
    exists evs w',
      Run env id host readBuffer pkts serverErr ctxErr w
      = (evs, Returned w',
         match ctxErr with Some e => Some e | None => serverErr end)
      /\ length evs = length pkts
      /\ registry w' = registry w
      /\ pollers w' = pollers w.
Proof.
  intros env id host readBuffer pkts serverErr ctxErr w Hreg Hfresh.
  unfold Run.
  destruct (close_after_logs_restores env id host (Monitoring.uint64 readBuffer)
              Minute w (map callOf pkts) Hreg Hfresh) as (w' & Hclose & Hr & Hp).
  destruct (newInputMetrics env id host (Monitoring.uint64 readBuffer) Minute w)
    as [metrics w1].
  destruct (serve_events pkts metrics []) as (evs & Hs & Hts & _).
  rewrite Hs. simpl in *. rewrite Hclose.
  exists evs, w'. split; [reflexivity|].
  split; [rewrite <- (length_map Timestamp evs), Hts; apply length_map | auto].
Qed.

Lemma Run_witness :
  exists evs w',
    Run (literalEnv "linux") "udp-1" "127.0.0.1:8080" 0 twoPackets None None
      emptyWorld
    = (evs, Returned w', None)
    /\ length evs = length twoPackets
    /\ registry w' = registry emptyWorld
    /\ pollers w' = pollers emptyWorld.
Proof.
  apply (Run_leaves_nothing_behind (literalEnv "linux") "udp-1" "127.0.0.1:8080" 0
           twoPackets None None emptyWorld).
  - reflexivity.
  - constructor.
Defined.
